(** * Conditioner 0.8.5: a shallow embedding of the conditional activation engine

    The development follows [src/conditioner/Conditioner.js]:
    - [Js]: the fragment of JavaScript values and exceptions the code relies on;
    - [Utils]: [Utils.mergeObjects];
    - [Expression], [Tester]: [UnaryExpression], [BinaryExpression], [Tester];
    - [ExpressionFormatter]: [getExpressionsCount] and [fromString];
    - [ConditionsManager], [ModuleController], [Node]: the three stateful
      classes, with object identity of module controllers given by their index
      in [Node._moduleControllers] and [Observer.publish] resolved against the
      subscriptions the library itself installs. *)

From Stdlib Require Import ZArith Ascii String.
From stdpp Require Import base list strings gmap.

Open Scope string_scope.
Set Warnings "-register-all".

(** ** JavaScript values and completions *)
Module Js.

(** Values that configuration objects, test assertions and module methods
    exchange.  Numbers are restricted to integers; objects are records of own
    enumerable data properties, in insertion order. *)
Inductive value :=
| VUndefined
| VNull
| VBool (b : bool)
| VNum (n : Z)
| VStr (s : string)
| VArr (l : list value)
| VObj (fields : list (string * value)).

Inductive error :=
| TypeError (msg : string)
| Error (msg : string).

(** A call either returns or throws. *)
Inductive result (A : Type) :=
| Ok (a : A)
| Throw (e : error).
Arguments Ok {A} a.
Arguments Throw {A} e.

Definition bind {A B} (r : result A) (k : A -> result B) : result B :=
  match r with
  | Ok a => k a
  | Throw e => Throw e
  end.

Notation "'let*' x ':=' r 'in' k" := (bind r (fun x => k))
  (at level 10, x pattern, r at level 200, k at level 200).

(** Computations that loop: [None] when the fuel runs out. *)
Definition lift {A} (r : result A) : option (result A) := Some r.

Definition and_then {A B} (r : option (result A)) (k : A -> option (result B))
  : option (result B) :=
  match r with
  | None => None
  | Some (Throw e) => Some (Throw e)
  | Some (Ok a) => k a
  end.

Notation "'let+' x ':=' r 'in' k" := (and_then r (fun x => k))
  (at level 10, x pattern, r at level 200, k at level 200).

(** [!!v] *)
Definition truthy (v : value) : bool :=
  match v with
  | VUndefined | VNull => false
  | VBool b => b
  | VNum n => negb (n =? 0)%Z
  | VStr s => negb (String.eqb s EmptyString)
  | VArr _ | VObj _ => true
  end.

(** [typeof v === 'object'] *)
Definition typeof_object (v : value) : bool :=
  match v with
  | VNull | VArr _ | VObj _ => true
  | _ => false
  end.

(** [Array.isArray(v)] *)
Definition isArray (v : value) : bool :=
  match v with VArr _ => true | _ => false end.

(** [a === b] on primitives; two distinct object or array literals are never
    identical, and configuration values carry no shared references. *)
Definition strict_eq (a b : value) : bool :=
  match a, b with
  | VUndefined, VUndefined => true
  | VNull, VNull => true
  | VBool x, VBool y => Bool.eqb x y
  | VNum x, VNum y => (x =? y)%Z
  | VStr x, VStr y => String.eqb x y
  | _, _ => false
  end.

Definition digit (n : nat) : ascii := ascii_of_nat (48 + n).

Fixpoint digits (fuel n : nat) (acc : string) : string :=
  match fuel with
  | O => acc
  | S fuel' =>
      let acc' := String (digit (n mod 10)) acc in
      if (n / 10 =? 0)%nat then acc' else digits fuel' (n / 10) acc'
  end.

(** [String(n)] for an array index. *)
Definition index_key (n : nat) : string := digits (S n) n EmptyString.

(** [String(v)] for the primitives. *)
Definition to_string (v : value) : string :=
  match v with
  | VUndefined => "undefined"
  | VNull => "null"
  | VBool true => "true"
  | VBool false => "false"
  | VNum n =>
      if (n <? 0)%Z then "-" ++ index_key (Z.to_nat (- n)) else index_key (Z.to_nat n)
  | VStr s => s
  | VArr _ | VObj _ => "[object Object]"
  end.

Fixpoint lookup_field (k : string) (fs : list (string * value)) : option value :=
  match fs with
  | [] => None
  | (k', v) :: fs' => if String.eqb k k' then Some v else lookup_field k fs'
  end.

(** [obj[k] = v] on a plain object: overwrite in place or add last. *)
Fixpoint set_field (k : string) (v : value) (fs : list (string * value))
  : list (string * value) :=
  match fs with
  | [] => [(k, v)]
  | (k', v') :: fs' =>
      if String.eqb k k' then (k, v) :: fs' else (k', v') :: set_field k v fs'
  end.

(** [arr[i] = v]: JavaScript grows the array; the slots skipped over read as
    [undefined]. *)
Fixpoint array_set (i : nat) (v : value) (l : list value) : list value :=
  match i, l with
  | O, [] => [v]
  | O, _ :: l' => v :: l'
  | S i', [] => VUndefined :: array_set i' v []
  | S i', x :: l' => x :: array_set i' v l'
  end.

Fixpoint chars (s : string) : list value :=
  match s with
  | EmptyString => []
  | String c s' => VStr (String c EmptyString) :: chars s'
  end.

(** The own enumerable properties [Object.keys(v)] walks over, with their
    values (ES2015: a primitive is first converted to an object). *)
Definition own_fields (v : value) : list (string * value) :=
  match v with
  | VObj fs => fs
  | VArr l => imap (fun i x => (index_key i, x)) l
  | VStr s => imap (fun i x => (index_key i, x)) (chars s)
  | _ => []
  end.

(** [v[i]] for an array index [i]; [None] is the TypeError of reading a
    property of [undefined] or [null]. *)
Definition get_index (v : value) (i : nat) : option value :=
  match v with
  | VUndefined | VNull => None
  | VArr l => Some (default VUndefined (l !! i))
  | VStr s => Some (default VUndefined (chars s !! i))
  | VObj fs => Some (default VUndefined (lookup_field (index_key i) fs))
  | _ => Some VUndefined
  end.

(** [v[k]] for an own property name [k]. *)
Definition get_prop (v : value) (k : string) : option value :=
  match v with
  | VUndefined | VNull => None
  | VObj fs => Some (default VUndefined (lookup_field k fs))
  | VArr _ | VStr _ => Some (default VUndefined (lookup_field k (own_fields v)))
  | _ => Some VUndefined
  end.

Fixpoint prefix_of (p s : string) : bool :=
  match p, s with
  | EmptyString, _ => true
  | String a p', String b s' => Ascii.eqb a b && prefix_of p' s'
  | String _ _, EmptyString => false
  end.

(** [s.indexOf(p) !== -1] *)
Fixpoint includes (p s : string) : bool :=
  prefix_of p s ||
  match s with
  | EmptyString => false
  | String _ s' => includes p s'
  end.

End Js.

(** ** Utils *)
Module Utils.
Import Js.

(** [target.indexOf(e) === -1] in the array branch of [mergeObjects]: a strict
    search on an array, a substring search on a string, and a TypeError on
    anything else, which has no [indexOf]. *)
Definition indexOf_is_minus_one (target e : value) : result bool :=
  match target with
  | VArr l => Ok (negb (existsb (strict_eq e) l))
  | VStr s => Ok (negb (includes (to_string e) s))
  | _ => Throw (TypeError "target.indexOf is not a function")
  end.

(** [[].concat(target)] *)
Definition concat_onto_empty (target : value) : list value :=
  match target with
  | VArr l => l
  | _ => [target]
  end.

(** [Object.keys(o).forEach(function (key) { dst[key] = o[key]; })] *)
Definition copy_fields (fs dst : list (string * value)) : list (string * value) :=
  fold_left (fun d kv => set_field (fst kv) (snd kv) d) fs dst.

(** [dst] of the object branch after the keys of [target] are copied. *)
Definition target_fields (target : value) : list (string * value) :=
  if truthy target && typeof_object target
  then copy_fields (own_fields target) []
  else [].

(** [Utils.mergeObjects(target, src)].  The recursion is on [src]: every
    recursive call is made on an entry of [src]. *)
Fixpoint mergeObjects (target src : value) {struct src} : result value :=
  match src with
  | VArr entries =>
      (* target = target || []; dst = dst.concat(target) *)
      let target := if truthy target then target else VArr [] in
      (* src.forEach(function(e, i) { ... }) *)
      (fix each (es : list value) (i : nat) (dst : list value) {struct es}
         : result value :=
         match es with
         | [] => Ok (VArr dst)
         | e :: es' =>
             if typeof_object e then
               match get_index target i with
               | None => Throw (TypeError "cannot read property of undefined")
               | Some ti =>
                   let* m := mergeObjects ti e in
                   each es' (S i) (array_set i m dst)
               end
             else
               let* absent := indexOf_is_minus_one target e in
               each es' (S i) (if absent : bool then (dst ++ [e])%list else dst)
         end) entries O (concat_onto_empty target)
  | VObj fs =>
      (* Object.keys(src).forEach(function (key) { ... }) *)
      (fix each (fs : list (string * value)) (dst : list (string * value)) {struct fs}
         : result value :=
         match fs with
         | [] => Ok (VObj dst)
         | (key, v) :: fs' =>
             if negb (typeof_object v) || negb (truthy v) then
               each fs' (set_field key v dst)
             else
               match get_prop target key with
               | None => Throw (TypeError "cannot read property of undefined")
               | Some tk =>
                   if negb (truthy tk) then each fs' (set_field key v dst)
                   else
                     let* m := mergeObjects tk v in
                     each fs' (set_field key m dst)
               end
         end) fs (target_fields target)
  | _ =>
      (* src = src || {}: a primitive has no object-typed property, so every
         key it has is copied by the first branch of the loop. *)
      Ok (VObj (copy_fields (if truthy src then own_fields src else [])
                            (target_fields target)))
  end.

(** The loop over [Object.keys(src)] of [mergeObjects], on its own: [fs] are
    the keys still to visit and [dst] the object built so far. *)
Definition each_key (target : value)
  : list (string * value) -> list (string * value) -> result value :=
  fix each (fs : list (string * value)) (dst : list (string * value)) {struct fs}
    : result value :=
    match fs with
    | [] => Ok (VObj dst)
    | (key, v) :: fs' =>
        if negb (typeof_object v) || negb (truthy v) then
          each fs' (set_field key v dst)
        else
          match get_prop target key with
          | None => Throw (TypeError "cannot read property of undefined")
          | Some tk =>
              if negb (truthy tk) then each fs' (set_field key v dst)
              else
                let* m := mergeObjects tk v in
                each fs' (set_field key m dst)
          end
    end.

(** The [src.forEach] loop of the array branch, on its own; [target] is
    already [target || []]. *)
Definition each_entry (target : value) : list value -> nat -> list value -> result value :=
  fix each (es : list value) (i : nat) (dst : list value) {struct es} : result value :=
    match es with
    | [] => Ok (VArr dst)
    | e :: es' =>
        if typeof_object e then
          match get_index target i with
          | None => Throw (TypeError "cannot read property of undefined")
          | Some ti =>
              let* m := mergeObjects ti e in
              each es' (S i) (array_set i m dst)
          end
        else
          let* absent := indexOf_is_minus_one target e in
          each es' (S i) (if absent : bool then (dst ++ [e])%list else dst)
    end.

(** What one turn of the loop over the keys stores under [key]. *)
Definition merged_entry (target : value) (key : string) (v : value) : result value :=
  if negb (typeof_object v) || negb (truthy v) then Ok v
  else
    match get_prop target key with
    | None => Throw (TypeError "cannot read property of undefined")
    | Some tk => if negb (truthy tk) then Ok v else mergeObjects tk v
    end.

End Utils.

(** ** Tester *)
Module Tester.
Import Js.

(** What [test.assert(expected, element)] answers at the moment, per test
    path and expected value; the element is fixed for a conditions manager. *)
Definition assertions := string -> value -> value.

Record t := mk {
  _test : string;       (* path of the test the tester holds an instance of *)
  _expected : value;
  _result : value;      (* cached result *)
  _changed : bool
}.

(** [new Tester(test, expected, element)] *)
Definition new (test : string) (expected : value) : t :=
  {| _test := test; _expected := expected; _result := VBool false; _changed := true |}.

(** The subscriber installed by the constructor on the test's [change]. *)
Definition onTestChange (tester : t) : t :=
  {| _test := _test tester; _expected := _expected tester;
     _result := _result tester; _changed := true |}.

(** [Tester.prototype.succeeds] *)
Definition succeeds (env : assertions) (tester : t) : value * t :=
  if _changed tester then
    let r := env (_test tester) (_expected tester) in
    (r, {| _test := _test tester; _expected := _expected tester;
           _result := r; _changed := false |})
  else (_result tester, tester).

(** What [succeeds()] would answer now, without touching the cache. *)
Definition peek (env : assertions) (tester : t) : value :=
  if _changed tester then env (_test tester) (_expected tester) else _result tester.

End Tester.

(** ** UnaryExpression and BinaryExpression *)
Module Expression.
Import Js.

(** Everything [ExpressionFormatter.fromString] stores in its arrays: operator
    words, nested arrays, [undefined] read from an array, and the two
    expression classes. *)
Inductive item :=
| TStr (s : string)
| TArr (items : list item)
| TUndefined
| TUnary (_expression : slot) (_config : config) (_negate : bool)
| TBinary (_a : item) (_o : string) (_b : item)
(** [UnaryExpression._expression] *)
with slot :=
| SNull
| STester (tester : Tester.t)
| SPlain                          (* an assigned object without [succeeds] *)
| SExpr (e : item)
(** [UnaryExpression._config] *)
with config :=
| CNull
| CLeaf (path value : string)     (* {'path':path,'value':value} *)
| CItem (e : item).               (* whatever else the constructor was given *)

(** [e instanceof BinaryExpression || e instanceof UnaryExpression] *)
Definition is_expression (e : item) : bool :=
  match e with
  | TUnary _ _ _ | TBinary _ _ _ => true
  | _ => false
  end.

(** [new UnaryExpression(expression, negate)] *)
Definition UnaryExpression (expression : config) (negate : bool) : item :=
  match expression with
  | CItem e => if is_expression e then TUnary (SExpr e) CNull negate
               else TUnary SNull expression negate
  | _ => TUnary SNull expression negate
  end.

(** [new BinaryExpression(a, o, b)] *)
Definition BinaryExpression (a : item) (o : string) (b : item) : item :=
  TBinary a o b.

(** [!!this._config] *)
Definition config_truthy (c : config) : bool :=
  match c with
  | CNull => false
  | CLeaf _ _ => true
  | CItem TUndefined => false
  | CItem (TStr s) => negb (String.eqb s EmptyString)
  | CItem _ => true
  end.

(** [r !== this._negate] *)
Definition differs (r : value) (negate : bool) : bool :=
  negb (strict_eq r (VBool negate)).

(** [succeeds()] on whatever sits in an expression slot.  The testers cache
    their result, so the call also returns the updated object. *)
Fixpoint succeeds (env : Tester.assertions) (e : item) {struct e}
  : result (bool * item) :=
  match e with
  | TUnary x c n =>
      match x with
      | SNull => Throw (TypeError "cannot read property 'succeeds' of null")
      | SPlain => Ok (false, e)
      | STester tester =>
          let '(r, tester') := Tester.succeeds env tester in
          Ok (differs r n, TUnary (STester tester') c n)
      | SExpr e1 =>
          if is_expression e1 then
            let* (r, e1') := succeeds env e1 in
            Ok (xorb r n, TUnary (SExpr e1') c n)
          else
            match e1 with
            | TUndefined =>
                Throw (TypeError "cannot read property 'succeeds' of undefined")
            | _ => Ok (false, e)
            end
      end
  | TBinary a o b =>
      let* (ra, a') := succeeds env a in
      if String.eqb o "and" then
        (* this._a.succeeds() && this._b.succeeds() *)
        if ra : bool then
          let* (rb, b') := succeeds env b in Ok (rb, TBinary a' o b')
        else Ok (false, TBinary a' o b)
      else
        (* this._a.succeeds() || this._b.succeeds() *)
        if ra then Ok (true, TBinary a' o b)
        else let* (rb, b') := succeeds env b in Ok (rb, TBinary a' o b')
  | TStr _ | TArr _ => Throw (TypeError "succeeds is not a function")
  | TUndefined => Throw (TypeError "cannot read property 'succeeds' of undefined")
  end.

(** [toString()].  An array prints its elements separated by commas, with
    [undefined] printed empty. *)
Fixpoint toString (e : item) {struct e} : result string :=
  match e with
  | TStr s => Ok s
  | TArr items =>
      (fix join (l : list item) (first : bool) : result string :=
         match l with
         | [] => Ok EmptyString
         | x :: l' =>
             let* sx := match x with TUndefined => Ok EmptyString | _ => toString x end in
             let* rest := join l' false in
             Ok ((if first then EmptyString else ",") ++ sx ++ rest)
         end) items true
  | TUndefined => Throw (TypeError "cannot read property 'toString' of undefined")
  | TUnary x c n =>
      let* body :=
        match x with
        | SExpr e1 => toString e1
        | STester _ | SPlain => Ok "[object Object]"
        | SNull =>
            match c with
            | CLeaf path value => Ok (path ++ ":{" ++ value ++ "}")
            | CNull => Throw (TypeError "cannot read property 'path' of null")
            | CItem TUndefined =>
                Throw (TypeError "cannot read property 'path' of undefined")
            | CItem _ => Ok "undefined:{undefined}"
            end
        end in
      Ok ((if n then "not " else EmptyString) ++ body)
  | TBinary a o b =>
      let* sa := toString a in
      let* sb := toString b in
      Ok ("(" ++ sa ++ " " ++ o ++ " " ++ sb ++ ")")
  end.

(** The arrays [getConfig()] builds: an entry per leaf, nested per binary
    expression. *)
Inductive configuration :=
| Entry (c : config)                (* {'expression':this,'config':this._config} *)
| Entries (l : list configuration).

(** [getConfig()] *)
Fixpoint getConfig (e : item) {struct e} : result configuration :=
  match e with
  | TUnary x c n =>
      if config_truthy c then Ok (Entries [Entry c])
      else
        match x with
        | SExpr e1 => getConfig e1
        | SNull => Throw (TypeError "cannot read property 'getConfig' of null")
        | STester _ | SPlain => Throw (TypeError "getConfig is not a function")
        end
  | TBinary a o b =>
      let* ca := getConfig a in
      let* cb := getConfig b in
      Ok (Entries [ca; cb])
  | TUndefined => Throw (TypeError "cannot read property 'getConfig' of undefined")
  | TStr _ | TArr _ => Throw (TypeError "getConfig is not a function")
  end.

(** The leaves of a configuration in the order [_loadExpressionTests] visits
    them. *)
Fixpoint leaves (c : configuration) : list config :=
  match c with
  | Entry c => [c]
  | Entries l => (fix all (l : list configuration) : list config :=
                    match l with
                    | [] => []
                    | x :: l' => (leaves x ++ all l')%list
                    end) l
  end.

(** Runs [f] on the [_expression] field of the [k]-th leaf [getConfig] listed.
    An entry of the configuration holds a reference to its leaf object; the
    embedding resolves it by the position of the leaf.  Returns the rest of the
    count when the leaf lies further right. *)
Fixpoint at_leaf (k : nat) (f : slot -> slot) (e : item) {struct e} : nat + item :=
  match e with
  | TUnary x c n =>
      if config_truthy c then
        match k with
        | O => inr (TUnary (f x) c n)
        | S k' => inl k'
        end
      else
        match x with
        | SExpr e1 =>
            match at_leaf k f e1 with
            | inr e1' => inr (TUnary (SExpr e1') c n)
            | inl k' => inl k'
            end
        | _ => inl k
        end
  | TBinary a o b =>
      match at_leaf k f a with
      | inr a' => inr (TBinary a' o b)
      | inl k' =>
          match at_leaf k' f b with
          | inr b' => inr (TBinary a o b')
          | inl k'' => inl k''
          end
      end
  | _ => inl k
  end.

(** The [_expression] field of the [k]-th leaf. *)
Fixpoint leaf_at (k : nat) (e : item) {struct e} : nat + slot :=
  match e with
  | TUnary x c n =>
      if config_truthy c then
        match k with
        | O => inr x
        | S k' => inl k'
        end
      else
        match x with
        | SExpr e1 => leaf_at k e1
        | _ => inl k
        end
  | TBinary a o b =>
      match leaf_at k a with
      | inr x => inr x
      | inl k' => leaf_at k' b
      end
  | _ => inl k
  end.

(** [UnaryExpression.prototype.assignTester], on the [k]-th leaf of [e]. *)
Definition assignTester (k : nat) (tester : slot) (e : item) : item :=
  match at_leaf k (fun _ => tester) e with
  | inr e' => e'
  | inl _ => e
  end.

(** Every leaf holds a tester and every operand is an expression: the state
    of the tree once the test of each leaf has arrived. *)
Fixpoint resolved (e : item) : bool :=
  match e with
  | TUnary (STester _) _ _ => true
  | TUnary (SExpr e1) _ _ => is_expression e1 && resolved e1
  | TBinary a _ b => is_expression a && resolved a && (is_expression b && resolved b)
  | _ => false
  end.


(** The trees [fromString] builds from a well-formed string, with some of the
    leaves already given their tester: a leaf has a config and [null] or a
    tester, a negation wraps an expression and has no config, the operands of
    a binary expression are expressions. *)
Fixpoint shaped (e : item) : bool :=
  match e with
  | TUnary SNull c _ | TUnary (STester _) c _ => config_truthy c
  | TUnary (SExpr e1) c _ => negb (config_truthy c) && is_expression e1 && shaped e1
  | TBinary a _ b => is_expression a && shaped a && (is_expression b && shaped b)
  | _ => false
  end.

(** The leaves that still wait for their tester. *)
Fixpoint awaiting (e : item) : nat :=
  match e with
  | TUnary SNull _ _ => 1
  | TUnary (SExpr e1) _ _ => awaiting e1
  | TBinary a _ b => awaiting a + awaiting b
  | _ => 0
  end.

(** The number of leaves [getConfig] lists. *)
Fixpoint leaf_count (e : item) : nat :=
  match e with
  | TUnary x c _ =>
      if config_truthy c then 1
      else match x with
           | SExpr e1 => leaf_count e1
           | _ => 0
           end
  | TBinary a _ b => leaf_count a + leaf_count b
  | _ => 0
  end.

End Expression.

(** ** ExpressionFormatter *)
Module ExpressionFormatter.
Import Js Expression.

(** The number of matches of [/(\:\{)/g]; the two characters cannot overlap
    with themselves, so the matches are the occurrences. *)
Fixpoint count_openers (s : string) : nat :=
  match s with
  | String ":" (String "{" _ as s') => S (count_openers s')
  | String _ s' => count_openers s'
  | EmptyString => 0
  end.

(** [getExpressionsCount(expression)]: [String.prototype.match] answers [null]
    when nothing matches, and [.length] is read off the answer. *)
Definition getExpressionsCount (expression : string) : result nat :=
  match count_openers expression with
  | O => Throw (TypeError "cannot read property 'length' of null")
  | n => Ok n
  end.

(** [w.match(/and |or |not /g)[0]]: the leftmost match, [None] for [null]. *)
Fixpoint first_operator (w : string) : option string :=
  if prefix_of "and " w then Some "and "
  else if prefix_of "or " w then Some "or "
  else if prefix_of "not " w then Some "not "
  else match w with
       | EmptyString => None
       | String _ w' => first_operator w'
       end.

(** The [while (k>=0)] loop that rebuilds the path to the left of [:{]; [n]
    is [k+1]. *)
Fixpoint fetch_path (expression : string) (n : nat) (path : string) : string :=
  match n with
  | O => path
  | S k =>
      match String.get k expression with
      | Some c =>
          if (Ascii.eqb c " " || Ascii.eqb c "(")%char then path
          else fetch_path expression k (String c path)
      | None => fetch_path expression k path
      end
  end.

(** [arr[i]] *)
Definition at_index (l : list item) (i : Z) : item :=
  if (i <? 0)%Z then TUndefined else default TUndefined (l !! Z.to_nat i).

(** [arr[i] = x] for [0 <= i <= arr.length] *)
Definition put (l : list item) (i : nat) (x : item) : list item :=
  if (i <? length l)%nat then <[i:=x]> l else (l ++ [x])%list.

(** [arr.splice(start, deleteCount, x)]; a negative [start] counts from the
    end of the array. *)
Definition splice (l : list item) (start : Z) (deleteCount : nat) (x : item)
  : list item :=
  let len := Z.of_nat (length l) in
  let from := Z.to_nat (if (start <? 0)%Z then Z.max (len + start) 0 else Z.min start len) in
  (take from l ++ x :: drop (from + deleteCount) l)%list.

(** The arrays the parser holds references to all lie on the rightmost spine
    of [tree]: the array at depth [d+1] is the last element of the one at
    depth [d].  A reference is the depth. *)
Fixpoint spine_get (d : nat) (a : list item) : option (list item) :=
  match d with
  | O => Some a
  | S d' =>
      match last a with
      | Some (TArr b) => spine_get d' b
      | _ => None
      end
  end.

Fixpoint spine_set (d : nat) (new : list item) (a : list item) : list item :=
  match d with
  | O => new
  | S d' =>
      match last a with
      | Some (TArr b) => (removelast a ++ [TArr (spine_set d' new b)])%list
      | _ => a
      end
  end.

(** The local variables of [fromString] that live across iterations. *)
Record state := mk {
  i : nat;
  path : string;
  value : string;
  isValue : bool;
  tree : list item;
  target : option nat;      (* [None] once [target] is [undefined] *)
  parents : list nat        (* top of the stack first *)
}.

Definition set_i (n : nat) (st : state) : state :=
  {| i := n; path := path st; value := value st; isValue := isValue st;
     tree := tree st; target := target st; parents := parents st |}.

(** The array [target] refers to; reading a property of [undefined] throws. *)
Definition deref (st : state) : result (nat * list item) :=
  match target st with
  | Some d =>
      match spine_get d (tree st) with
      | Some a => Ok (d, a)
      | None => Throw (TypeError "dangling reference")
      end
  | None => Throw (TypeError "cannot read property of undefined")
  end.

(** Writes the array [target] refers to. *)
Definition store (d : nat) (a : list item) (st : state) : state :=
  {| i := i st; path := path st; value := value st; isValue := isValue st;
     tree := spine_set d a (tree st); target := target st; parents := parents st |}.

(** The [for (;j<tl;j++)] loop that groups the operators of one level.  It
    rewinds after every replacement and need not terminate on malformed
    input, hence the fuel. *)
Fixpoint group (fuel : nat) (j : nat) (tl : nat) (a : list item)
  : option (list item) :=
  match fuel with
  | O => None
  | S fuel' =>
      if (tl <=? j)%nat then Some a
      else
        match at_index a (Z.of_nat j) with
        | TStr s =>
            if String.eqb s "not" then
              let a' := splice a (Z.of_nat j) 2
                          (UnaryExpression (CItem (at_index a (Z.of_nat j + 1))) true) in
              group fuel' 0 (length a') a'
            else
              match at_index a (Z.of_nat j + 1) with
              | TStr "not" => group fuel' (S j) tl a
              | next =>
                  let a' := splice a (Z.of_nat j - 1) 3
                              (BinaryExpression (at_index a (Z.of_nat j - 1)) s next) in
                  group fuel' 0 (length a') a'
              end
        | _ => group fuel' (S j) tl a
        end
  end.

(** The [do { ... } while (i === l-1 && parent)] block that closes a level. *)
Fixpoint cleanup (fuel : nat) (l : nat) (st : state) {struct fuel}
  : option (result state) :=
  match fuel with
  | O => None
  | S fuel' =>
      (* parent = parents.pop() *)
      let parent := head (parents st) in
      let st := {| i := i st; path := path st; value := value st;
                   isValue := isValue st; tree := tree st; target := target st;
                   parents := tail (parents st) |} in
      let+ st' :=
        let+ (d, a) := lift (deref st) in
        if (length a =? 0)%nat then
          (* target = parent; continue *)
          lift (Ok {| i := i st; path := path st; value := value st;
                      isValue := isValue st; tree := tree st; target := parent;
                      parents := parents st |})
        else
          match group fuel' 0 (length a) a with
          | None => None
          | Some a' =>
              let st := store d a' st in
              match a', parent with
              | [x], Some p =>
                  (* parent[parent.length-1] = target[0]; target = parent *)
                  match spine_get p (tree st) with
                  | Some pa =>
                      lift (Ok {| i := i st; path := path st; value := value st;
                                  isValue := isValue st;
                                  tree := spine_set p (removelast pa ++ [x])%list (tree st);
                                  target := Some p; parents := parents st |})
                  | None => lift (Throw (TypeError "dangling reference"))
                  end
              | _, _ => lift (Ok st)
              end
          end in
      if (i st' =? l - 1)%nat && bool_decide (is_Some parent)
      then cleanup fuel' l st'
      else lift (Ok st')
  end.

(** One turn of the [for (;i<l;i++)] loop, up to the increment. *)
Definition body (fuel : nat) (expression : string) (l : nat) (st : state)
  : option (result state) :=
  let c := default " "%char (String.get (i st) expression) in
  if Ascii.eqb c "{" then
    (* now reading the expression: isValue = true; fetch path; continue *)
    lift (Ok {| i := i st; path := fetch_path expression (i st - 1) EmptyString;
                value := value st; isValue := true; tree := tree st;
                target := target st; parents := parents st |})
  else
    let+ st :=
      if Ascii.eqb c "}" then
        let+ (d, a) := lift (deref st) in
        let lastIndex := (Z.of_nat (length a) - 1)%Z in
        let negate := match at_index a lastIndex with
                      | TStr "not" => true
                      | _ => false
                      end in
        let index := if negate then (length a - 1)%nat else length a in
        let st := store d (put a index (UnaryExpression (CLeaf (path st) (value st)) negate)) st in
        lift (Ok {| i := i st; path := EmptyString; value := EmptyString; isValue := false;
                    tree := tree st; target := target st; parents := parents st |})
      else lift (Ok st) in
    if isValue st then
      (* value += c; continue *)
      lift (Ok {| i := i st; path := path st; value := value st ++ String c EmptyString;
                  isValue := isValue st; tree := tree st; target := target st;
                  parents := parents st |})
    else
      let+ st :=
        if Ascii.eqb c "(" then
          (* target.push([]); parents.push(target); target = target[target.length-1] *)
          let+ (d, a) := lift (deref st) in
          let st := store d (a ++ [TArr []])%list st in
          lift (Ok {| i := i st; path := path st; value := value st;
                      isValue := isValue st; tree := tree st; target := Some (S d);
                      parents := d :: parents st |})
        else lift (Ok st) in
      let closes (st : state) :=
        if Ascii.eqb c ")" || (i st =? l - 1)%nat then cleanup fuel l st
        else lift (Ok st) in
      if Ascii.eqb c " " || (i st =? 0)%nat || Ascii.eqb c "(" then
        match first_operator (substring (i st) 5 expression) with
        | None => lift (Ok st)                                  (* continue *)
        | Some op =>
            let ol := (String.length op - 1)%nat in
            let+ (d, a) := lift (deref st) in
            (* target.push(op.substring(0,ol)); i+=ol *)
            closes (set_i (i st + ol) (store d (a ++ [TStr (substring 0 ol op)])%list st))
        end
      else closes st.

Fixpoint loop (fuel : nat) (expression : string) (l : nat) (st : state)
  {struct fuel} : option (result state) :=
  match fuel with
  | O => None
  | S fuel' =>
      if (l <=? i st)%nat then lift (Ok st)
      else
        let+ st' := body fuel' expression l st in
        loop fuel' expression l (set_i (S (i st')) st')
  end.

(** [ExpressionFormatter.fromString(expression)] *)
Definition fromString (fuel : nat) (expression : string) : option (result item) :=
  let+ st := loop fuel expression (String.length expression)
               {| i := 0; path := EmptyString; value := EmptyString; isValue := false;
                  tree := []; target := Some 0%nat; parents := [] |} in
  (* return tree.length === 1 ? tree[0] : tree *)
  lift (Ok (match tree st with
            | [x] => x
            | t => TArr t
            end)).

(** An operand followed by operator and operand pairs, as they sit in
    [target] when a level is closed. *)
Definition chain (x : item) (ops : list (string * item)) : list item :=
  x :: flat_map (fun oy => [TStr (fst oy); snd oy]) ops.

(** [typeof x === 'string'] *)
Definition is_word (x : item) : bool :=
  match x with
  | TStr _ => true
  | _ => false
  end.

End ExpressionFormatter.

(** ** Observer *)
Module Observer.

(** [obj._subscriptions] holds [{type, fn}] records; [H] enumerates the
    functions the library subscribes. *)
Section Subscriptions.
Context {H : Type} (same : H -> H -> bool).

Definition subscriptions := list (string * H).

  (** [Observer.subscribe]: the loop that looks for a duplicate compares the
      counter with the array itself ([l=obj._subscriptions]) and never runs,
      so the record is always added. *)
Definition subscribe (subs : subscriptions) (type : string) (fn : H) : subscriptions :=
    (subs ++ [(type, fn)])%list.

  (** [Observer.unsubscribe]: removes the last matching record. *)
Fixpoint unsubscribe (subs : subscriptions) (type : string) (fn : H) : subscriptions :=
    match subs with
    | [] => []
    | (ty, f) :: rest =>
        if existsb (fun s => String.eqb (fst s) type && same (snd s) fn) rest
        then (ty, f) :: unsubscribe rest type fn
        else if String.eqb ty type && same f fn then rest
        else (ty, f) :: rest
    end.

  (** The callbacks [Observer.publish] collects before it calls them. *)
Definition subscribed (subs : subscriptions) (type : string) : list H :=
    map snd (filter (fun s => String.eqb (fst s) type = true) subs).
End Subscriptions.

End Observer.

(** ** ConditionsManager *)
Module ConditionsManager.
Import Js Expression.

(** What the manager publishes. *)
Inductive event :=
| Ready (suitable : bool)
| Change.

(** The functions subscribed to a manager: both belong to the module
    controller that owns it. *)
Inductive handler :=
| OnReady               (* ModuleController._onReady.bind(this) *)
| OnConditionsChange.   (* ModuleController._onConditionsChange.bind(this) *)

Definition same_handler (a b : handler) : bool :=
  match a, b with
  | OnReady, OnReady | OnConditionsChange, OnConditionsChange => true
  | _, _ => false
  end.

Record t := mk {
  _suitable : bool;
  _count : Z;
  _expression : option item;           (* [undefined] without conditions *)
  (** the callbacks handed to [TestFactory.getTest] that have not run yet: the
      position of the leaf and its config *)
  loading : list (nat * config);
  _subscriptions : list (string * handler)
}.

(** [getSuitability()] *)
Definition getSuitability (cm : t) : bool := _suitable cm.

(** [config.path] and [config.value] as [_loadTesterToExpression] reads them. *)
Definition config_path (c : config) : string :=
  match c with
  | CLeaf path _ => path
  | _ => "undefined"
  end.

Definition config_value (c : config) : value :=
  match c with
  | CLeaf _ v => VStr v
  | _ => VUndefined
  end.

Fixpoint waiting (k : nat) (l : list (nat * config)) : option config :=
  match l with
  | [] => None
  | (k', c) :: l' => if (k =? k')%nat then Some c else waiting k l'
  end.

(** [new ConditionsManager(conditions, element)]; [_loadExpressionTests] asks
    [TestFactory.getTest] for one test per leaf, and the answers come later. *)
Definition new (fuel : nat) (conditions : value) : option (result t) :=
  match conditions with
  | VStr s =>
      match ExpressionFormatter.getExpressionsCount s with
      | Throw e => Some (Throw e)
      | Ok count =>
          match ExpressionFormatter.fromString fuel s with
          | None => None
          | Some (Throw e) => Some (Throw e)
          | Some (Ok expression) =>
              Some (let* configuration := getConfig expression in
                    Ok {| _suitable := false;
                          _count := Z.of_nat count;
                          _expression := Some expression;
                          loading := imap (fun k c => (k, c)) (leaves configuration);
                          _subscriptions := [] |})
          end
      end
  | _ =>
      (* if no conditions, conditions will always be suitable *)
      Some (Ok {| _suitable := true; _count := 0; _expression := None;
                  loading := []; _subscriptions := [] |})
  end.

(** [test()], with the events it publishes. *)
Definition test (env : Tester.assertions) (cm : t) : result (t * list event) :=
  match _expression cm with
  | None => Throw (TypeError "cannot read property 'succeeds' of undefined")
  | Some expression =>
      let* (suitable, expression') := succeeds env expression in
      if xorb suitable (_suitable cm) then
        Ok ({| _suitable := suitable; _count := _count cm;
               _expression := Some expression'; loading := loading cm;
               _subscriptions := _subscriptions cm |}, [Change])
      else
        Ok ({| _suitable := _suitable cm; _count := _count cm;
               _expression := Some expression'; loading := loading cm;
               _subscriptions := _subscriptions cm |}, [])
  end.

(** [_onReady()] *)
Definition _onReady (env : Tester.assertions) (cm : t) : result (t * list event) :=
  let* (cm', events) := test env cm in
  Ok (cm', (events ++ [Ready (_suitable cm')])%list).

(** [_onTestResultsChanged()] *)
Definition _onTestResultsChanged (env : Tester.assertions) (cm : t)
  : result (t * list event) :=
  test env cm.

(** The callback [_loadTesterToExpression] hands to [TestFactory.getTest],
    for the leaf at position [k]. *)
Definition onTestFound (env : Tester.assertions) (k : nat) (cm : t)
  : result (t * list event) :=
  match waiting k (loading cm) with
  | None => Ok (cm, [])                      (* no such callback is waiting *)
  | Some c =>
      let cm :=
        {| _suitable := _suitable cm;
           _count := _count cm - 1;
           _expression :=
             option_map (assignTester k (STester (Tester.new (config_path c) (config_value c))))
                        (_expression cm);
           loading := filter (fun kc => fst kc <> k) (loading cm);
           _subscriptions := _subscriptions cm |} in
      if (_count cm =? 0)%Z then _onReady env cm else Ok (cm, [])
  end.

(** A test instance publishes [change]: the tester that holds it marks its
    result as outdated, then the manager tests again. *)
Definition onTestChange (env : Tester.assertions) (k : nat) (cm : t)
  : result (t * list event) :=
  match _expression cm with
  | None => Ok (cm, [])
  | Some expression =>
      match leaf_at k expression with
      | inr (STester tester) =>
          _onTestResultsChanged env
            {| _suitable := _suitable cm; _count := _count cm;
               _expression :=
                 Some (assignTester k (STester (Tester.onTestChange tester)) expression);
               loading := loading cm;
               _subscriptions := _subscriptions cm |}
      | _ => Ok (cm, [])                     (* no test instance exists yet *)
      end
  end.

(** A manager that is still waiting for tests: its tree has the shape
    [fromString] gives it, [_count] is the number of leaves without tester,
    and each callback still to come belongs to such a leaf. *)
Definition resolving (cm : t) : Prop :=
  exists e,
    _expression cm = Some e
    /\ shaped e = true
    /\ _count cm = Z.of_nat (awaiting e)
    /\ forall k c, waiting k (loading cm) = Some c -> leaf_at k e = inr SNull.

End ConditionsManager.

(** ** ModuleController *)
Module ModuleController.
Import Js.

(** What [instance[name]] evaluates to. *)
Inductive member :=
| Method (f : list value -> result value)
| Data (v : value).

(** A module instance: its properties by name ([None] for a name it does not
    expose), and whether its events propagate to the controller. *)
Record instance := {
  property : string -> option member;
  _eventPropagationTarget : bool
}.

(** [!F] *)
Definition missing (F : option member) : bool :=
  match F with
  | None => true
  | Some (Data v) => negb (truthy v)
  | Some (Method _) => false
  end.

(** The collaborators reached through globals: the module loader, the module
    register and the JSON parser. *)
Record host := {
  modules : string -> value -> result instance;  (* [new Module(target, options)] *)
  register : string -> option value;             (* [_modules[path].config] *)
  parse : string -> option value                 (* [JSON.parse], [None] when it throws *)
}.

(** The options of a controller; [target] is the element of the node. *)
Record options := {
  conditions : value;
  module_options : value   (* [options.options] *)
}.

(** The functions the node subscribes to its controllers. *)
Inductive handler :=
| OnModuleReady              (* Node._onModuleReady.bind(this) *)
| OnModuleAvailable          (* Node._onModuleAvailable.bind(this) *)
| ActiveModuleUnloadBind.    (* Node._activeModuleUnloadBind *)

(** Only [_activeModuleUnloadBind] is kept and passed again; every [bind]
    at a [subscribe] call makes a new function. *)
Definition same_handler (a b : handler) : bool :=
  match a, b with
  | ActiveModuleUnloadBind, ActiveModuleUnloadBind => true
  | _, _ => false
  end.

Record t := mk {
  _path : string;
  _options : options;
  _Module : option (value -> result instance);
  _moduleInstance : option instance;
  _conditionsManager : ConditionsManager.t;
  _ready : bool;
  _available : bool;
  _subscriptions : list (string * handler)
}.

(** What a call does to the outside, in order. *)
Inductive effect :=
| Require (path : string)        (* require([path], callback) *)
| SetupPropagationTarget
| RemovePropagationTarget
| InstanceUnload                 (* this._moduleInstance.unload() *)
| Publish (type : string).

Record response := { status : Z; response_data : value }.

(** [isConditioned()] *)
Definition isConditioned (mc : t) : bool :=
  match conditions (_options mc) with
  | VUndefined => false
  | _ => true
  end.

(** [new ModuleController(path, options)] *)
Definition new (fuel : nat) (path : string) (opts : options) : option (result t) :=
  if String.eqb path EmptyString then
    Some (Throw (Error "ModuleController(path,options): path is a required parameter."))
  else
    match ConditionsManager.new fuel (conditions opts) with
    | None => None
    | Some (Throw e) => Some (Throw e)
    | Some (Ok cm) =>
        let cm :=
          ConditionsManager.mk
            (ConditionsManager._suitable cm) (ConditionsManager._count cm)
            (ConditionsManager._expression cm) (ConditionsManager.loading cm)
            (Observer.subscribe (ConditionsManager._subscriptions cm) "ready"
                                ConditionsManager.OnReady) in
        let conditioned := match conditions opts with VUndefined => false | _ => true end in
        Some (Ok {| _path := path; _options := opts; _Module := None;
                    _moduleInstance := None; _conditionsManager := cm;
                    _ready := negb conditioned || ConditionsManager.getSuitability cm;
                    _available := false; _subscriptions := [] |})
    end.

Definition set_available (b : bool) (mc : t) : t :=
  {| _path := _path mc; _options := _options mc; _Module := _Module mc;
     _moduleInstance := _moduleInstance mc;
     _conditionsManager := _conditionsManager mc; _ready := _ready mc;
     _available := b; _subscriptions := _subscriptions mc |}.

Definition set_instance (x : option instance) (mc : t) : t :=
  {| _path := _path mc; _options := _options mc; _Module := _Module mc;
     _moduleInstance := x;
     _conditionsManager := _conditionsManager mc; _ready := _ready mc;
     _available := _available mc; _subscriptions := _subscriptions mc |}.

Definition set_Module (m : value -> result instance) (mc : t) : t :=
  {| _path := _path mc; _options := _options mc; _Module := Some m;
     _moduleInstance := _moduleInstance mc;
     _conditionsManager := _conditionsManager mc; _ready := _ready mc;
     _available := _available mc; _subscriptions := _subscriptions mc |}.

Definition set_ready (b : bool) (mc : t) : t :=
  {| _path := _path mc; _options := _options mc; _Module := _Module mc;
     _moduleInstance := _moduleInstance mc;
     _conditionsManager := _conditionsManager mc; _ready := b;
     _available := _available mc; _subscriptions := _subscriptions mc |}.

Definition set_conditionsManager (cm : ConditionsManager.t) (mc : t) : t :=
  {| _path := _path mc; _options := _options mc; _Module := _Module mc;
     _moduleInstance := _moduleInstance mc;
     _conditionsManager := cm; _ready := _ready mc;
     _available := _available mc; _subscriptions := _subscriptions mc |}.

Definition set_subscriptions (subs : list (string * handler)) (mc : t) : t :=
  {| _path := _path mc; _options := _options mc; _Module := _Module mc;
     _moduleInstance := _moduleInstance mc;
     _conditionsManager := _conditionsManager mc; _ready := _ready mc;
     _available := _available mc; _subscriptions := subs |}.

(** [this._conditionsManager.getSuitability()] *)
Definition suitable (mc : t) : bool :=
  ConditionsManager.getSuitability (_conditionsManager mc).

(** [isAvailable()]: refreshes [_available] from the conditions manager. *)
Definition isAvailable (mc : t) : bool * t :=
  let available := ConditionsManager.getSuitability (_conditionsManager mc) in
  (available, set_available available mc).

(** [isActive()] *)
Definition isActive (mc : t) : bool :=
  match _moduleInstance mc with
  | Some _ => true
  | None => false
  end.

(** [isReady()] *)
Definition isReady (mc : t) : bool := _ready mc.

(** [matchesPath(path)] *)
Definition matchesPath (mc : t) (path : string) : bool := String.eqb (_path mc) path.

(** [_onLoad()] *)
Definition _onLoad (h : host) (mc : t) : result (t * list effect) :=
  let (available, mc) := isAvailable mc in
  if negb available then Ok (mc, [])           (* if no longer available *)
  else
    let moduleOptions := default (VObj []) (register h (_path mc)) in
    let* elementOptions :=
      match module_options (_options mc) with
      | VStr s =>
          match parse h s with
          | Some v => Ok v
          | None => Throw (Error "ModuleController.loadModule(): options is not a valid JSON string.")
          end
      | v => Ok v
      end in
    let* options :=
      if truthy moduleOptions then Utils.mergeObjects moduleOptions elementOptions
      else Ok elementOptions in
    match _Module mc with
    | None => Throw (TypeError "this._Module is not a constructor")
    | Some Module =>
        let* inst := Module options in
        Ok (set_instance (Some {| property := property inst;
                                  _eventPropagationTarget := true |}) mc,
            [SetupPropagationTarget; Publish "load"])
    end.

(** [load()]: when the module is not there yet, [require] is asked for it and
    the rest happens in [onRequired]. *)
Definition load (h : host) (mc : t) : result (t * list effect) :=
  match _Module mc with
  | Some _ => _onLoad h mc
  | None => Ok (mc, [Require (_path mc)])
  end.

(** The callback [load] hands to [require]. *)
Definition onRequired (h : host) (mc : t) : result (t * list effect) :=
  _onLoad h (set_Module (modules h (_path mc)) mc).

(** [unload()] *)
Definition unload (mc : t) : result (bool * t * list effect) :=
  let mc := set_available false mc in
  match _moduleInstance mc with
  | None => Ok (false, mc, [])
  | Some inst =>
      let* hook :=
        match property inst "unload" with
        | None => Ok []
        | Some (Data v) =>
            if truthy v
            then Throw (TypeError "this._moduleInstance.unload is not a function")
            else Ok []
        | Some (Method f) => let* _ := f [] in Ok [InstanceUnload]
        end in
      Ok (true, set_instance None mc,
          (RemovePropagationTarget :: hook ++ [Publish "unload"])%list)
  end.

(** [execute(method, params)] *)
Definition execute (mc : t) (method : string) (params : list value) : result response :=
  match _moduleInstance mc with
  | None => Ok {| status := 404; response_data := VNull |}
  | Some inst =>
      let F := property inst method in
      if missing F then
        Throw (Error "ModuleController.execute(method,params): function specified in method not found on module.")
      else
        match F with
        | Some (Method f) =>
            let* r := f params in
            Ok {| status := 200; response_data := r |}
        | _ => Throw (TypeError "F.apply is not a function")
        end
  end.

End ModuleController.

(** ** Node *)
Module Node.
Import Js.
Module MC := ModuleController.
Module CM := ConditionsManager.

(** A node together with what surrounds it: the controllers are known by
    their index in [_moduleControllers]; [requiring] lists the controllers
    whose [require] callback has not run yet; [assertions] is what the tests
    assert at the moment. *)
Record t := mk {
  _moduleControllers : list MC.t;
  _activeModuleController : option nat;
  requiring : list nat;
  assertions : Tester.assertions
}.

Definition set_controllers (mcs : list MC.t) (w : t) : t :=
  {| _moduleControllers := mcs;
     _activeModuleController := _activeModuleController w;
     requiring := requiring w; assertions := assertions w |}.

Definition set_active (a : option nat) (w : t) : t :=
  {| _moduleControllers := _moduleControllers w;
     _activeModuleController := a;
     requiring := requiring w; assertions := assertions w |}.

Definition set_requiring (r : list nat) (w : t) : t :=
  {| _moduleControllers := _moduleControllers w;
     _activeModuleController := _activeModuleController w;
     requiring := r; assertions := assertions w |}.

Definition set_assertions (env : Tester.assertions) (w : t) : t :=
  {| _moduleControllers := _moduleControllers w;
     _activeModuleController := _activeModuleController w;
     requiring := requiring w; assertions := env |}.

(** [this._moduleControllers[i]] *)
Definition controller (i : nat) (w : t) : result MC.t :=
  match _moduleControllers w !! i with
  | Some mc => Ok mc
  | None => Throw (TypeError "cannot read property of undefined")
  end.

Definition update (i : nat) (mc : MC.t) (w : t) : t :=
  set_controllers (<[i:=mc]> (_moduleControllers w)) w.

(** [_getSuitableActiveModuleController()]: the first controller, from
    position [i] on, whose [isAvailable()] answers true.  Every controller
    asked has its [_available] refreshed. *)
Fixpoint first_available (mcs : list MC.t) (i : nat) : option nat * list MC.t :=
  match mcs with
  | [] => (None, [])
  | mc :: rest =>
      let (available, mc') := MC.isAvailable mc in
      if available then (Some i, mc' :: rest)
      else let (found, rest') := first_available rest (S i) in (found, mc' :: rest')
  end.

Definition _getSuitableActiveModuleController (w : t) : option nat * t :=
  let (found, mcs) := first_available (_moduleControllers w) 0 in
  (found, set_controllers mcs w).

(** The loop of [_onModuleAvailable]: [true] when it returns early because
    another controller is available and conditioned. *)
Fixpoint other_available (mcs : list MC.t) (i : nat) (moduleController : nat)
  : bool * list MC.t :=
  match mcs with
  | [] => (false, [])
  | mc :: rest =>
      if (i =? moduleController)%nat then
        let (found, rest') := other_available rest (S i) moduleController in
        (found, mc :: rest')
      else
        let (available, mc') := MC.isAvailable mc in
        if available && MC.isConditioned mc' then (true, mc' :: rest)
        else
          let (found, rest') := other_available rest (S i) moduleController in
          (found, mc' :: rest')
  end.

(** [while (--i >= 0) { if (!this._moduleControllers[i].isReady()) return; }] *)
Definition all_ready (w : t) : bool := forallb MC.isReady (_moduleControllers w).

Section Calls.
Variable h : MC.host.

  (** The calls that reach each other through [Observer.publish]; what they
      return is the state they leave. *)
Fixpoint publish (fuel : nat) (i : nat) (type : string) (w : t) {struct fuel}
    : option (result t) :=
    match fuel with
    | O => None
    | S fuel' =>
        let+ mc := lift (controller i w) in
        (fix call (fns : list MC.handler) (w : t) : option (result t) :=
           match fns with
           | [] => lift (Ok w)
           | fn :: fns' =>
               let+ w := match fn with
                         | MC.OnModuleReady => _onModuleReady fuel' w
                         | MC.OnModuleAvailable => _onModuleAvailable fuel' i w
                         | MC.ActiveModuleUnloadBind => _onActiveModuleUnload fuel' w
                         end in
               call fns' w
           end) (Observer.subscribed (MC._subscriptions mc) type) w
    end

  (** what a controller's call did to the outside *)
  with perform (fuel : nat) (i : nat) (effects : list MC.effect) (w : t) {struct fuel}
    : option (result t) :=
    match fuel with
    | O => None
    | S fuel' =>
        (fix each (effects : list MC.effect) (w : t) : option (result t) :=
           match effects with
           | [] => lift (Ok w)
           | MC.Require _ :: rest => each rest (set_requiring (requiring w ++ [i])%list w)
           | MC.Publish type :: rest => let+ w := publish fuel' i type w in each rest w
           | _ :: rest => each rest w
           end) effects w
    end

  (** [this._moduleControllers[i].unload()] *)
  with unload (fuel : nat) (i : nat) (w : t) {struct fuel} : option (result (bool * t)) :=
    match fuel with
    | O => None
    | S fuel' =>
        let+ mc := lift (controller i w) in
        let+ (unloaded, mc, effects) := lift (MC.unload mc) in
        let+ w := perform fuel' i effects (update i mc w) in
        lift (Ok (unloaded, w))
    end

  (** [this._moduleControllers[i].load()] *)
  with load (fuel : nat) (i : nat) (w : t) {struct fuel} : option (result t) :=
    match fuel with
    | O => None
    | S fuel' =>
        let+ mc := lift (controller i w) in
        let+ (mc, effects) := lift (MC.load h mc) in
        perform fuel' i effects (update i mc w)
    end

  with _onModuleReady (fuel : nat) (w : t) {struct fuel} : option (result t) :=
    match fuel with
    | O => None
    | S fuel' =>
        if all_ready w then _onModulesReady fuel' w else lift (Ok w)
    end

  with _onModulesReady (fuel : nat) (w : t) {struct fuel} : option (result t) :=
    match fuel with
    | O => None
    | S fuel' =>
        (* find suitable active module controller *)
        let (moduleController, w) := _getSuitableActiveModuleController w in
        let+ w := match moduleController with
                  | Some m => _setActiveModuleController fuel' m w
                  | None => lift (Ok w)
                  end in
        (* listen to available events on controllers *)
        lift (Ok (set_controllers
                    (map (fun mc => MC.set_subscriptions
                                      (Observer.subscribe (MC._subscriptions mc) "available"
                                                          MC.OnModuleAvailable) mc)
                         (_moduleControllers w)) w))
    end

  with _onModuleAvailable (fuel : nat) (moduleController : nat) (w : t) {struct fuel}
    : option (result t) :=
    match fuel with
    | O => None
    | S fuel' =>
        let (found, mcs) := other_available (_moduleControllers w) 0 moduleController in
        let w := set_controllers mcs w in
        if found then lift (Ok w)
        else _setActiveModuleController fuel' moduleController w
    end

  with _setActiveModuleController (fuel : nat) (moduleController : nat) (w : t)
    {struct fuel} : option (result t) :=
    match fuel with
    | O => None
    | S fuel' =>
        (* if not already loaded *)
        if bool_decide (_activeModuleController w = Some moduleController) then lift (Ok w)
        else
          let+ w := _cleanActiveModuleController fuel' w in
          let w := set_active (Some moduleController) w in
          let+ mc := lift (controller moduleController w) in
          let w := update moduleController
                     (MC.set_subscriptions
                        (Observer.subscribe (MC._subscriptions mc) "unload"
                                            MC.ActiveModuleUnloadBind) mc) w in
          load fuel' moduleController w
    end

  with _cleanActiveModuleController (fuel : nat) (w : t) {struct fuel}
    : option (result t) :=
    match fuel with
    | O => None
    | S fuel' =>
        match _activeModuleController w with
        | None => lift (Ok w)
        | Some a =>
            let+ mc := lift (controller a w) in
            (* stop listening to unload *)
            let w := update a
                       (MC.set_subscriptions
                          (Observer.unsubscribe MC.same_handler (MC._subscriptions mc)
                                                "unload" MC.ActiveModuleUnloadBind) mc) w in
            (* unload controller *)
            let+ (_, w) := unload fuel' a w in
            (* remove reference *)
            lift (Ok (set_active None w))
        end
    end

  with _onActiveModuleUnload (fuel : nat) (w : t) {struct fuel} : option (result t) :=
    match fuel with
    | O => None
    | S fuel' =>
        let+ w := _cleanActiveModuleController fuel' w in
        let (moduleController, w) := _getSuitableActiveModuleController w in
        match moduleController with
        | None => lift (Ok w)
        | Some m => _setActiveModuleController fuel' m w
        end
    end.

  (** [ModuleController._onAvailable], for the controller at [i] *)
Definition controller_onAvailable (fuel : nat) (i : nat) (w : t) : option (result t) :=
    let+ mc := lift (controller i w) in
    (* module is now available; let other know we are available *)
    publish fuel i "available" (update i (MC.set_available true mc) w).

  (** [ModuleController._onReady(suitable)] *)
Definition controller_onReady (fuel : nat) (i : nat) (suitable : bool) (w : t)
    : option (result t) :=
    let+ mc := lift (controller i w) in
    let cm := MC._conditionsManager mc in
    let cm := CM.mk (CM._suitable cm) (CM._count cm) (CM._expression cm) (CM.loading cm)
                    (Observer.subscribe (CM._subscriptions cm) "change"
                                        CM.OnConditionsChange) in
    let w := update i (MC.set_conditionsManager cm (MC.set_ready true mc)) w in
    let+ w := publish fuel i "ready" w in
    if suitable then controller_onAvailable fuel i w else lift (Ok w).

  (** [ModuleController._onConditionsChange()] *)
Definition controller_onConditionsChange (fuel : nat) (i : nat) (w : t)
    : option (result t) :=
    let+ mc := lift (controller i w) in
    let suitable := CM.getSuitability (MC._conditionsManager mc) in
    let+ w := if MC.isActive mc && negb suitable
              then let+ (_, w) := unload fuel i w in lift (Ok w)
              else lift (Ok w) in
    let+ mc := lift (controller i w) in
    if negb (MC.isActive mc) && suitable then controller_onAvailable fuel i w
    else lift (Ok w).

  (** [Observer.publish] on the conditions manager of the controller at [i],
      for the events one call of the manager published, in order. *)
Fixpoint dispatch (fuel : nat) (i : nat) (events : list CM.event) (w : t)
    {struct events} : option (result t) :=
    match events with
    | [] => lift (Ok w)
    | ev :: rest =>
        let+ mc := lift (controller i w) in
        let '(type, suitable) := match ev with
                                 | CM.Ready suitable => ("ready", suitable)
                                 | CM.Change => ("change", false)
                                 end in
        let+ w :=
          (fix call (fns : list CM.handler) (w : t) : option (result t) :=
             match fns with
             | [] => lift (Ok w)
             | fn :: fns' =>
                 let+ w := match fn with
                           | CM.OnReady => controller_onReady fuel i suitable w
                           | CM.OnConditionsChange => controller_onConditionsChange fuel i w
                           end in
                 call fns' w
             end) (Observer.subscribed (CM._subscriptions (MC._conditionsManager mc)) type) w in
        dispatch fuel i rest w
    end.

  (** [new ModuleController(...)] for every declaration, as
      [_createModuleControllers] does. *)
Fixpoint create (fuel : nat) (specs : list (string * MC.options))
    : option (result (list MC.t)) :=
    match specs with
    | [] => lift (Ok [])
    | (path, opts) :: rest =>
        let+ mc := MC.new fuel path opts in
        let+ mcs := create fuel rest in
        lift (Ok (mc :: mcs))
    end.

  (** The [for] loop of [init], from position [i] on. *)
Fixpoint listen (fuel : nat) (n : nat) (i : nat) (w : t) {struct n}
    : option (result t) :=
    match n with
    | O => lift (Ok w)
    | S n' =>
        let+ mc := lift (controller i w) in
        let+ w :=
          if MC.isReady mc then _onModuleReady fuel w
          else lift (Ok (update i (MC.set_subscriptions
                                     (Observer.subscribe (MC._subscriptions mc) "ready"
                                                         MC.OnModuleReady) mc) w)) in
        listen fuel n' (S i) w
    end.

  (** [init()], given the declarations found on the element. *)
Definition init (fuel : nat) (specs : list (string * MC.options))
    (env : Tester.assertions) : option (result t) :=
    let+ mcs := create fuel specs in
    match mcs with
    | [] => lift (Throw (Error "Node.init(): element has to have a data-module attribute containing a reference to a Module."))
    | _ =>
        listen fuel (length mcs) 0
          {| _moduleControllers := mcs; _activeModuleController := None;
             requiring := []; assertions := env |}
    end.

  (** [execute(method, params)] *)
Definition execute (w : t) (method : string) (params : list value)
    : result MC.response :=
    match _activeModuleController w with
    | Some a =>
        let* mc := controller a w in
        MC.execute mc method params
    | None => Ok {| MC.status := 404; MC.response_data := VNull |}
    end.

  (** What happens to a node from outside. *)
Inductive event :=
  | TestFound (i k : nat)     (* the test for leaf [k] of controller [i] arrives *)
  | TestChange (i k : nat)    (* the test instance of that leaf publishes [change] *)
  | Measure (env : Tester.assertions)   (* the environment the tests assert on changes *)
  | Required (i : nat)        (* [require] answers a [load()] of controller [i] *)
  | Unload (i : nat).         (* [unload()] is called on controller [i] *)

Fixpoint remove_first (i : nat) (l : list nat) : option (list nat) :=
    match l with
    | [] => None
    | x :: l' =>
        if (x =? i)%nat then Some l'
        else option_map (cons x) (remove_first i l')
    end.

Definition step (fuel : nat) (ev : event) (w : t) : option (result t) :=
    match ev with
    | TestFound i k =>
        let+ mc := lift (controller i w) in
        let+ (cm, events) := lift (CM.onTestFound (assertions w) k (MC._conditionsManager mc)) in
        dispatch fuel i events (update i (MC.set_conditionsManager cm mc) w)
    | TestChange i k =>
        let+ mc := lift (controller i w) in
        let+ (cm, events) := lift (CM.onTestChange (assertions w) k (MC._conditionsManager mc)) in
        dispatch fuel i events (update i (MC.set_conditionsManager cm mc) w)
    | Measure env => lift (Ok (set_assertions env w))
    | Required i =>
        match remove_first i (requiring w) with
        | None => lift (Ok w)
        | Some rest =>
            let w := set_requiring rest w in
            let+ mc := lift (controller i w) in
            let+ (mc, effects) := lift (MC.onRequired h mc) in
            perform fuel i effects (update i mc w)
        end
    | Unload i =>
        match _moduleControllers w !! i with
        | None => lift (Ok w)
        | Some _ => let+ (_, w) := unload fuel i w in lift (Ok w)
        end
    end.

Fixpoint run (fuel : nat) (events : list event) (w : t) : option (result t) :=
    match events with
    | [] => lift (Ok w)
    | ev :: rest => let+ w := step fuel ev w in run fuel rest w
    end.

End Calls.

(** The controllers with a live module instance. *)
Definition active (w : t) : list nat :=
  omap (fun x => x)
       (imap (fun i mc => if MC.isActive mc then Some i else None) (_moduleControllers w)).

(** The loop of [_filterModuleControllers], from position [i] on: the
    controller found when [single], the array of all matches otherwise. *)
Fixpoint filter_from (mcs : list MC.t) (i : nat) (path : string) (single : bool)
    (result : list nat) : option nat + list nat :=
  match mcs with
  | [] => if single then inl None else inr result
  | mc :: rest =>
      if MC.matchesPath mc path then
        if single then inl (Some i)
        else filter_from rest (S i) path single (result ++ [i])%list
      else filter_from rest (S i) path single result
  end.

(** [_filterModuleControllers(path, single)] *)
Definition _filterModuleControllers (w : t) (path : string) (single : bool)
  : option nat + list nat :=
  filter_from (_moduleControllers w) 0 path single [].

(** [getModuleControllerByPath(path)] *)
Definition getModuleControllerByPath (w : t) (path : string) : option nat + list nat :=
  _filterModuleControllers w path true.

(** [getModuleControllerAllByPath(path)] *)
Definition getModuleControllerAllByPath (w : t) (path : string) : option nat + list nat :=
  _filterModuleControllers w path false.

(** [getActiveModuleController()] *)
Definition getActiveModuleController (w : t) : option nat := _activeModuleController w.

End Node.

(** ** ModuleRegister *)
Module ModuleRegister.
Import Js.

(** An entry of [_modules]: each of the two properties is there only when
    [registerModule] was given a truthy value for it. *)
Record specification := {
  config : option value;
  alias : option string
}.



(** [getModuleByPath(path)] *)
Definition getModuleByPath (modules : gmap string specification) (path : string)
  : result (option specification) :=
  if String.eqb path EmptyString then
    Throw (Error "ModuleRegister.getModuleById(path): path is a required parameter.")
  else Ok (modules !! path).

(** [specification ? specification.config : {}] in [ModuleController._onLoad] *)
Definition moduleOptions (modules : gmap string specification) (path : string)
  : result value :=
  let* specification := getModuleByPath modules path in
  Ok match specification with
     | Some spec => default VUndefined (config spec)
     | None => VObj []
     end.

End ModuleRegister.

(** ** TestFactory *)
Module TestFactory.
Import Js.

(** What a test module defines; [support] is what [config.support()]
    answers, when the module has it. *)
Record config := {
  has_assert : bool;
  support : option value;
  has_setup : bool;
  has_arrange : bool;
  has_measure : bool
}.

(** The static side of a [Test] class.  The callbacks are the [onchange] of
    the instances, known by the number of the instance; [setups] counts the
    calls of [config.setup]. *)
Record Test := {
  of_config : config;
  supported : value;
  _callbacks : list nat;
  _ready : bool;
  setups : nat
}.

(** [_createTest(path, config)] *)
Definition _createTest (c : config) : result Test :=
  if negb (has_assert c) then
    Throw (Error "TestRegister._addTest(path,config): config.assert is a required parameter.")
  else
    Ok {| of_config := c;
          supported := match support c with
                       | Some answer => answer
                       | None => VBool true
                       end;
          _callbacks := []; _ready := false; setups := 0 |}.

(** [Test._setup(test)], for the instance [test] *)
Definition _setup (T : Test) (test : nat) : result Test :=
  (* if test is not supported stop here *)
  if negb (truthy (supported T)) then Ok T
  else
    (* push reference to test act method *)
    let callbacks := (_callbacks T ++ [test])%list in
    if _ready T then
      Ok {| of_config := of_config T; supported := supported T;
            _callbacks := callbacks; _ready := true; setups := setups T |}
    else if has_setup (of_config T) then
      Ok {| of_config := of_config T; supported := supported T;
            _callbacks := callbacks; _ready := true; setups := S (setups T) |}
    else Throw (TypeError "cannot read property 'call' of undefined").

(** [test.arrange(expected, element)]: the module's own [arrange] when it has
    one, the setup of the class otherwise. *)
Definition arrange (T : Test) (test : nat) : result Test :=
  if has_arrange (of_config T) then Ok T else _setup T test.

(** [Test._measure(e)]: the instances whose [onchange] is called, in order;
    [answer] is what [config.measure] returns for [e], when the module has it. *)
Definition _measure (T : Test) (answer : value) : list nat :=
  let changed := if has_measure (of_config T) then truthy answer else true in
  if changed then _callbacks T else [].

(** The instances of one class arrange themselves one after the other. *)
Fixpoint arrange_all (T : Test) (tests : list nat) : result Test :=
  match tests with
  | [] => Ok T
  | test :: rest => let* T' := arrange T test in arrange_all T' rest
  end.

(** [_tests] after [getTest(path, found)], once [require] has delivered the
    config: the class is created and stored on the first request only. *)
Definition getTest (tests : gmap string Test) (path : string) (c : config)
  : result (gmap string Test) :=
  let path := "tests/" ++ path in
  match tests !! path with
  | Some _ => Ok tests
  | None =>
      let* T := _createTest c in
      Ok (<[path := T]> tests)
  end.

End TestFactory.

(** ** Concrete nodes used to run the embedding *)
Module Scenario.
Import Js.
Module MC := ModuleController.

(** A module whose instances expose [unload] and [greet]. *)
Definition widget : MC.instance :=
  {| MC.property := fun name =>
       if String.eqb name "unload" then Some (MC.Method (fun _ => Ok VUndefined))
       else if String.eqb name "greet" then Some (MC.Method (fun params => Ok (VArr params)))
       else if String.eqb name "version" then Some (MC.Data (VNum 3))
       else None;
     MC._eventPropagationTarget := false |}.

(** A module without an [unload] of its own. *)
Definition bare : MC.instance :=
  {| MC.property := fun _ => None; MC._eventPropagationTarget := false |}.

Definition host : MC.host :=
  {| MC.modules := fun _ _ => Ok widget;
     MC.register := fun _ => None;
     MC.parse := fun _ => None |}.

(** Every test asserts true, or every test asserts false. *)
Definition yes : Tester.assertions := fun _ _ => VBool true.
Definition no : Tester.assertions := fun _ _ => VBool false.

(** Test [a] asserts true and every other test false. *)
Definition only_a : Tester.assertions :=
  fun path _ => VBool (String.eqb path "a").

Definition unconditioned : MC.options :=
  {| MC.conditions := VUndefined; MC.module_options := VUndefined |}.

Definition conditioned (expression : string) : MC.options :=
  {| MC.conditions := VStr expression; MC.module_options := VUndefined |}.

(** [data-module='[{"path":"A"},{"path":"B","conditions":"a:{1}"}]'] *)
Definition plain_then_conditioned : list (string * MC.options) :=
  [("A", unconditioned); ("B", conditioned "a:{1}")].

(** [data-module='[{"path":"A","conditions":"b:{1}"},{"path":"B","conditions":"a:{1}"}]'] *)
Definition both_conditioned : list (string * MC.options) :=
  [("A", conditioned "b:{1}"); ("B", conditioned "a:{1}")].

(** A controller that holds [inst]. *)
Definition loaded (inst : MC.instance) : MC.t :=
  {| MC._path := "A"; MC._options := unconditioned;
     MC._Module := Some (fun _ => Ok inst);
     MC._moduleInstance := Some inst;
     MC._conditionsManager :=
       {| ConditionsManager._suitable := true; ConditionsManager._count := 0;
          ConditionsManager._expression := None; ConditionsManager.loading := [];
          ConditionsManager._subscriptions := [("ready", ConditionsManager.OnReady)] |};
     MC._ready := true; MC._available := true; MC._subscriptions := [] |}.

(** The verdict of the manager built for [conditions] once the tests of its
    first [n] leaves have arrived, in order. *)
Fixpoint found (env : Tester.assertions) (n k : nat) (cm : ConditionsManager.t)
  : result ConditionsManager.t :=
  match n with
  | O => Ok cm
  | S n' =>
      let* (cm', _) := ConditionsManager.onTestFound env k cm in
      found env n' (S k) cm'
  end.

Definition verdict (fuel : nat) (env : Tester.assertions) (conditions : string)
  : option (result bool) :=
  let+ cm := ConditionsManager.new fuel (VStr conditions) in
  lift (let* cm' := found env (length (ConditionsManager.loading cm)) 0 cm in
        Ok (ConditionsManager.getSuitability cm')).

(** The manager of ["a:{1} and not b:{2}"] after both tests have arrived while
    [a] asserted true and [b] false. *)
Definition ready_manager : ConditionsManager.t :=
  Eval vm_compute in
    match ConditionsManager.new 100 (VStr "a:{1} and not b:{2}") with
    | Some (Ok cm) =>
        match found only_a 2 0 cm with
        | Ok cm' => cm'
        | Throw _ => cm
        end
    | _ => ConditionsManager.mk true 0 None [] []
    end.

(** The state of a node after [init] and the events given, when nothing
    throws. *)
Definition after (specs : list (string * MC.options)) (env : Tester.assertions)
    (events : list Node.event) : option Node.t :=
  match Node.init host 50 specs env with
  | Some (Ok w) =>
      match Node.run host 50 events w with
      | Some (Ok w') => Some w'
      | _ => None
      end
  | _ => None
  end.

(** Two conditioned bindings whose tests both assert true: [A] is elected
    when the test of [B] arrives last. *)
Definition first_elected : Node.t :=
  Eval vm_compute in
    default (Node.mk [] None [] yes)
            (after both_conditioned yes [Node.TestFound 0 0; Node.TestFound 1 0]).

(** The same node once the module of [A] has come: [A] is active and holds
    an instance. *)
Definition first_loaded : Node.t :=
  Eval vm_compute in
    default (Node.mk [] None [] yes)
            (after both_conditioned yes
               [Node.TestFound 0 0; Node.TestFound 1 0; Node.Required 0]).

(** [A] alone, conditioned, active and loaded. *)
Definition alone_loaded : Node.t :=
  Eval vm_compute in
    default (Node.mk [] None [] yes)
            (after [("A", conditioned "a:{1}")] yes
               [Node.TestFound 0 0; Node.Required 0]).

(** That node at the moment the manager of [A] has turned unsuitable and is
    about to tell its controller. *)
Definition alone_unsuitable : Node.t :=
  Eval vm_compute in
    match Node._moduleControllers alone_loaded with
    | mc :: _ =>
        match ConditionsManager.onTestChange no 0 (MC._conditionsManager mc) with
        | Ok (cm, _) => Node.update 0 (MC.set_conditionsManager cm mc) alone_loaded
        | Throw _ => alone_loaded
        end
    | [] => alone_loaded
    end.

(** The manager of ["a:{1} and not b:{2}"] as the constructor leaves it. *)
Definition fresh_manager : ConditionsManager.t :=
  Eval vm_compute in
    match ConditionsManager.new 100 (VStr "a:{1} and not b:{2}") with
    | Some (Ok cm) => cm
    | _ => ConditionsManager.mk true 0 None [] []
    end.

End Scenario.

(** * Properties *)

Import Js.

(** ** ExpressionFormatter.getExpressionsCount *)

Lemma count_openers_zero (s : string) :
  (forall pre post, s <> pre ++ ":{" ++ post) ->
  ExpressionFormatter.count_openers s = 0%nat.
Proof.
  induction s as [|c s IH]; intros Hno; [reflexivity|].
  assert (Htail : forall pre post, s <> pre ++ ":{" ++ post).
  { intros pre post ->. apply (Hno (String c pre) post). reflexivity. }
  specialize (IH Htail).
  cbn [ExpressionFormatter.count_openers].
  destruct c as [b0 b1 b2 b3 b4 b5 b6 b7].
  destruct s as [|d s']; [destruct b0, b1, b2, b3, b4, b5, b6, b7; reflexivity|].
  destruct (Ascii.eqb_spec (Ascii b0 b1 b2 b3 b4 b5 b6 b7) ":") as [Hc|Hc];
    destruct (Ascii.eqb_spec d "{") as [Hd|Hd].
  - exfalso. apply (Hno EmptyString s'). rewrite Hc, Hd. reflexivity.
  - inversion Hc; subst.
    destruct d as [[] [] [] [] [] [] [] []]; try exact IH; congruence.
  - destruct b0, b1, b2, b3, b4, b5, b6, b7; try exact IH; congruence.
  - destruct b0, b1, b2, b3, b4, b5, b6, b7; try exact IH; congruence.
Qed.

(** C10.  A condition string without the two characters [:{] makes
    [getExpressionsCount] throw a TypeError, and so does the construction of a
    conditions manager (and of a module controller) for it. *)
Theorem getExpressionsCount_throws_without_leaf (s : string) :
  (forall pre post, s <> pre ++ ":{" ++ post) ->
  ExpressionFormatter.getExpressionsCount s
    = Throw (TypeError "cannot read property 'length' of null")
  /\ (forall fuel,
        ConditionsManager.new fuel (VStr s)
          = Some (Throw (TypeError "cannot read property 'length' of null")))
  /\ (forall fuel path options,
        path <> EmptyString ->
        ModuleController.new fuel path
          {| ModuleController.conditions := VStr s;
             ModuleController.module_options := options |}
          = Some (Throw (TypeError "cannot read property 'length' of null"))).
Proof.
  intros Hno.
  assert (Hcount : ExpressionFormatter.getExpressionsCount s
                   = Throw (TypeError "cannot read property 'length' of null")).
  { unfold ExpressionFormatter.getExpressionsCount.
    rewrite (count_openers_zero s Hno). reflexivity. }
  split; [exact Hcount|]. split.
  - intros fuel. cbn [ConditionsManager.new]. rewrite Hcount. reflexivity.
  - intros fuel path options Hpath. unfold ModuleController.new.
    destruct (String.eqb_spec path EmptyString) as [->|_]; [congruence|].
    cbn [ConditionsManager.new ModuleController.conditions]. rewrite Hcount. reflexivity.
Qed.

Lemma no_leaf_in_empty : forall pre post : string, EmptyString <> pre ++ ":{" ++ post.
Proof. intros [|c pre] post; discriminate. Qed.

Lemma getExpressionsCount_throws_without_leaf_witness :
  ExpressionFormatter.getExpressionsCount EmptyString
    = Throw (TypeError "cannot read property 'length' of null")
  /\ ConditionsManager.new 0 (VStr EmptyString)
     = Some (Throw (TypeError "cannot read property 'length' of null")).
Proof.
  destruct (getExpressionsCount_throws_without_leaf EmptyString no_leaf_in_empty)
    as (Hcount & Hnew & _).
  split; [exact Hcount | exact (Hnew 0%nat)].
Defined.

(** ** UnaryExpression.succeeds *)

(** A leaf whose tester has no [succeeds] answers false, whatever the
    negation flag. *)
Lemma leaf_without_capability_fails (env : Tester.assertions) c n :
  Expression.succeeds env (Expression.TUnary Expression.SPlain c n)
  = Ok (false, Expression.TUnary Expression.SPlain c n).
Proof. reflexivity. Qed.

(** A leaf with a tester answers the tester's boolean result xor its negation
    flag. *)
Lemma leaf_with_tester_xor (env : Tester.assertions) tester c n b tester' :
  Tester.succeeds env tester = (VBool b, tester') ->
  Expression.succeeds env (Expression.TUnary (Expression.STester tester) c n)
  = Ok (xorb b n, Expression.TUnary (Expression.STester tester') c n).
Proof.
  intros H. cbn [Expression.succeeds]. rewrite H.
  unfold Expression.differs. cbn [strict_eq]. destruct b, n; reflexivity.
Qed.

(** C4.  A leaf built from a [{path, value}] descriptor and evaluated before
    any tester is assigned does not answer false: reading [succeeds] off the
    [null] in [_expression] throws a TypeError. *)
Theorem unresolved_leaf_succeeds_throws (env : Tester.assertions)
    (path value : string) (negate : bool) :
  Expression.succeeds env
    (Expression.UnaryExpression (Expression.CLeaf path value) negate)
  = Throw (TypeError "cannot read property 'succeeds' of null").
Proof. reflexivity. Qed.

(** ** Utils.mergeObjects *)

(** C9.  With defaults [{a: []}] and declaration [{a: [{b: {c: 1}}]}] the merge
    does not return: the entry at index 0 is merged with [target[0]], which is
    [undefined], and the object branch reads [target[key]] off it. *)
Theorem mergeObjects_throws_on_longer_array :
  Utils.mergeObjects
    (VObj [("a", VArr [])])
    (VObj [("a", VArr [VObj [("b", VObj [("c", VNum 1)])]])])
  = Throw (TypeError "cannot read property of undefined").
Proof. reflexivity. Qed.

(** Where the merge returns, it does what the four clauses say on these
    inputs: the declaration wins on a scalar key, objects under the same key
    are merged, array entries of object type are merged by index, and a scalar
    entry is appended only when the defaults do not have it. *)
Example mergeObjects_examples :
  Utils.mergeObjects
    (VObj [("a", VNum 1); ("b", VObj [("x", VNum 1)])])
    (VObj [("a", VNum 2); ("b", VObj [("y", VNum 1)])])
  = Ok (VObj [("a", VNum 2); ("b", VObj [("x", VNum 1); ("y", VNum 1)])])
  /\ Utils.mergeObjects
       (VArr [VObj [("x", VNum 1)]; VNum 7])
       (VArr [VObj [("y", VNum 2)]; VNum 7; VNum 8])
     = Ok (VArr [VObj [("x", VNum 1); ("y", VNum 2)]; VNum 7; VNum 8]).
Proof. split; reflexivity. Qed.

(** ** ModuleController.execute and Node.execute *)

(** C3.  [execute] answers the 404 record without throwing when there is no
    module instance, throws an [Error] when the instance has no property of
    that name, and answers 200 with the value the method returned otherwise;
    the node hands the call to its active controller, or answers the same 404
    record when it has none. *)
Theorem execute_contract (mc : ModuleController.t) (method : string)
    (params : list value) :
  (ModuleController._moduleInstance mc = None ->
   ModuleController.execute mc method params
   = Ok {| ModuleController.status := 404; ModuleController.response_data := VNull |})
  /\ (forall inst,
        ModuleController._moduleInstance mc = Some inst ->
        ModuleController.property inst method = None ->
        exists msg, ModuleController.execute mc method params = Throw (Error msg))
  /\ (forall inst f r,
        ModuleController._moduleInstance mc = Some inst ->
        ModuleController.property inst method = Some (ModuleController.Method f) ->
        f params = Ok r ->
        ModuleController.execute mc method params
        = Ok {| ModuleController.status := 200; ModuleController.response_data := r |})
  /\ (forall w,
        Node._activeModuleController w = None ->
        Node.execute w method params
        = Ok {| ModuleController.status := 404; ModuleController.response_data := VNull |})
  /\ (forall w a,
        Node._activeModuleController w = Some a ->
        Node._moduleControllers w !! a = Some mc ->
        Node.execute w method params = ModuleController.execute mc method params).
Proof.
  repeat split.
  - intros H. unfold ModuleController.execute. rewrite H. reflexivity.
  - intros inst H Hnone. unfold ModuleController.execute. rewrite H, Hnone.
    cbn [ModuleController.missing]. eexists. reflexivity.
  - intros inst f r H Hf Hr. unfold ModuleController.execute. rewrite H, Hf.
    cbn [ModuleController.missing]. rewrite Hr. reflexivity.
  - intros w H. unfold Node.execute. rewrite H. reflexivity.
  - intros w a H Hmc. unfold Node.execute, Node.controller. rewrite H, Hmc. reflexivity.
Qed.

Lemma execute_contract_witness :
  ModuleController.execute (Scenario.loaded Scenario.widget) "greet" [VNum 1]
  = Ok {| ModuleController.status := 200; ModuleController.response_data := VArr [VNum 1] |}
  /\ (exists msg,
        ModuleController.execute (Scenario.loaded Scenario.widget) "missingMethod" []
        = Throw (Error msg))
  /\ ModuleController.execute
       (ModuleController.set_instance None (Scenario.loaded Scenario.widget)) "greet" []
     = Ok {| ModuleController.status := 404; ModuleController.response_data := VNull |}.
Proof.
  split; [|split].
  - apply (execute_contract (Scenario.loaded Scenario.widget) "greet" [VNum 1]) with
      (inst := Scenario.widget) (f := fun params => Ok (VArr params)); reflexivity.
  - apply (execute_contract (Scenario.loaded Scenario.widget) "missingMethod" []) with
      (inst := Scenario.widget); reflexivity.
  - apply (execute_contract
             (ModuleController.set_instance None (Scenario.loaded Scenario.widget))
             "greet" []); reflexivity.
Defined.

(** ** ModuleController.unload *)

(** C8.  Without a module instance [unload] answers false and publishes
    nothing.  With one it removes the propagation target, calls the
    instance's [unload] when it has one, drops the instance, publishes
    [unload] once and answers true. *)
Theorem unload_contract (mc : ModuleController.t) :
  (ModuleController._moduleInstance mc = None ->
   ModuleController.unload mc
   = Ok (false, ModuleController.set_available false mc, []))
  /\ (forall inst,
        ModuleController._moduleInstance mc = Some inst ->
        ModuleController.property inst "unload" = None ->
        exists mc',
          ModuleController.unload mc
          = Ok (true, mc', [ModuleController.RemovePropagationTarget;
                            ModuleController.Publish "unload"])
          /\ ModuleController.isActive mc' = false)
  /\ (forall inst f r,
        ModuleController._moduleInstance mc = Some inst ->
        ModuleController.property inst "unload" = Some (ModuleController.Method f) ->
        f [] = Ok r ->
        exists mc',
          ModuleController.unload mc
          = Ok (true, mc', [ModuleController.RemovePropagationTarget;
                            ModuleController.InstanceUnload;
                            ModuleController.Publish "unload"])
          /\ ModuleController.isActive mc' = false
          /\ ModuleController._available mc' = false).
Proof.
  repeat split.
  - intros H. unfold ModuleController.unload.
    cbn [ModuleController.set_available ModuleController._moduleInstance].
    rewrite H. reflexivity.
  - intros inst H Hhook. unfold ModuleController.unload.
    cbn [ModuleController.set_available ModuleController._moduleInstance].
    rewrite H, Hhook. cbn. eexists. split; reflexivity.
  - intros inst f r H Hhook Hr. unfold ModuleController.unload.
    cbn [ModuleController.set_available ModuleController._moduleInstance].
    rewrite H, Hhook. cbn. rewrite Hr. cbn. eexists. repeat apply conj; reflexivity.
Qed.

Lemma unload_contract_witness :
  (exists mc',
     ModuleController.unload (Scenario.loaded Scenario.widget)
     = Ok (true, mc', [ModuleController.RemovePropagationTarget;
                       ModuleController.InstanceUnload;
                       ModuleController.Publish "unload"])
     /\ ModuleController.isActive mc' = false
     /\ ModuleController._available mc' = false)
  /\ (exists mc',
        ModuleController.unload (Scenario.loaded Scenario.bare)
        = Ok (true, mc', [ModuleController.RemovePropagationTarget;
                          ModuleController.Publish "unload"])
        /\ ModuleController.isActive mc' = false)
  /\ ModuleController.unload
       (ModuleController.set_instance None (Scenario.loaded Scenario.widget))
     = Ok (false,
           ModuleController.set_available false
             (ModuleController.set_instance None (Scenario.loaded Scenario.widget)), []).
Proof.
  split; [|split].
  - apply (unload_contract (Scenario.loaded Scenario.widget)) with
      (inst := Scenario.widget) (f := fun _ => Ok VUndefined) (r := VUndefined);
      reflexivity.
  - apply (unload_contract (Scenario.loaded Scenario.bare)) with (inst := Scenario.bare);
      reflexivity.
  - apply (unload_contract
             (ModuleController.set_instance None (Scenario.loaded Scenario.widget)));
      reflexivity.
Defined.

(** ** ConditionsManager *)

Lemma succeeds_resolved (env : Tester.assertions) :
  forall e,
    Expression.resolved e = true ->
    exists verdict e',
      Expression.succeeds env e = Ok (verdict, e')
      /\ Expression.resolved e' = true
      /\ Expression.is_expression e' = Expression.is_expression e.
Proof.
  fix IH 1. intros [s|l| |x c n|a o b] H; try discriminate H.
  - destruct x as [|tester| |e1]; try discriminate H.
    + cbn [Expression.succeeds].
      destruct (Tester.succeeds env tester) as [r tester'].
      eexists _, _. repeat split.
    + cbn [Expression.resolved] in H. apply andb_true_iff in H as [He H1].
      destruct (IH e1 H1) as (v & e1' & Hs & Hr & Hk).
      cbn [Expression.succeeds]. rewrite He, Hs. cbn [bind].
      eexists _, _. repeat split. cbn [Expression.resolved].
      rewrite Hk, He, Hr. reflexivity.
  - cbn [Expression.resolved] in H.
    apply andb_true_iff in H as [Ha Hb].
    apply andb_true_iff in Ha as [Hka Ha]. apply andb_true_iff in Hb as [Hkb Hb].
    destruct (IH a Ha) as (va & a' & Hsa & Hra & Hka').
    destruct (IH b Hb) as (vb & b' & Hsb & Hrb & Hkb').
    cbn [Expression.succeeds]. rewrite Hsa. cbn [bind].
    destruct (String.eqb o "and"), va; rewrite ?Hsb; cbn [bind];
      eexists _, _; repeat split; cbn [Expression.resolved];
      rewrite ?Hka', ?Hkb', ?Hka, ?Hkb, ?Hra, ?Hrb, ?Ha, ?Hb; reflexivity.
Qed.

(** C5.  On a manager whose leaves all hold their tester, [test()] evaluates
    the expression tree; it stores the verdict, and publishes one [change]
    exactly when the verdict differs from the stored one. *)
Theorem test_publishes_change_iff_verdict_differs
    (env : Tester.assertions) (cm : ConditionsManager.t) (expression : Expression.item) :
  ConditionsManager._expression cm = Some expression ->
  Expression.resolved expression = true ->
  exists verdict expression' cm' events,
    Expression.succeeds env expression = Ok (verdict, expression')
    /\ ConditionsManager.test env cm = Ok (cm', events)
    /\ ConditionsManager._onTestResultsChanged env cm = Ok (cm', events)
    /\ ConditionsManager.getSuitability cm' = verdict
    /\ ConditionsManager._expression cm' = Some expression'
    /\ Expression.resolved expression' = true
    /\ events = (if Bool.eqb verdict (ConditionsManager._suitable cm)
                 then [] else [ConditionsManager.Change]).
Proof.
  intros He Hres.
  destruct (succeeds_resolved env expression Hres) as (v & e' & Hs & Hr & _).
  unfold ConditionsManager._onTestResultsChanged, ConditionsManager.test.
  rewrite He, Hs. cbn [bind].
  destruct v, (ConditionsManager._suitable cm) eqn:Hold; cbn [xorb Bool.eqb];
    eexists _, _, _, _; repeat split; first [exact Hr | cbn; congruence].
Qed.

Lemma test_publishes_change_iff_verdict_differs_witness :
  exists verdict expression' cm' events,
    Expression.succeeds Scenario.yes
      (Expression.TBinary
         (Expression.TUnary
            (Expression.STester (Tester.mk "a" (VStr "1") (VBool true) false))
            (Expression.CLeaf "a" "1") false)
         "and"
         (Expression.TUnary
            (Expression.STester (Tester.mk "b" (VStr "2") (VBool false) true))
            (Expression.CLeaf "b" "2") true))
    = Ok (verdict, expression')
    /\ ConditionsManager.test Scenario.yes
         (ConditionsManager.mk true 0
            (Some (Expression.TBinary
                     (Expression.TUnary
                        (Expression.STester (Tester.mk "a" (VStr "1") (VBool true) false))
                        (Expression.CLeaf "a" "1") false)
                     "and"
                     (Expression.TUnary
                        (Expression.STester (Tester.mk "b" (VStr "2") (VBool false) true))
                        (Expression.CLeaf "b" "2") true)))
            [] [("ready", ConditionsManager.OnReady)])
       = Ok (cm', events)
    /\ ConditionsManager._onTestResultsChanged Scenario.yes
         (ConditionsManager.mk true 0
            (Some (Expression.TBinary
                     (Expression.TUnary
                        (Expression.STester (Tester.mk "a" (VStr "1") (VBool true) false))
                        (Expression.CLeaf "a" "1") false)
                     "and"
                     (Expression.TUnary
                        (Expression.STester (Tester.mk "b" (VStr "2") (VBool false) true))
                        (Expression.CLeaf "b" "2") true)))
            [] [("ready", ConditionsManager.OnReady)])
       = Ok (cm', events)
    /\ ConditionsManager.getSuitability cm' = verdict
    /\ ConditionsManager._expression cm' = Some expression'
    /\ Expression.resolved expression' = true
    /\ events = (if Bool.eqb verdict true then [] else [ConditionsManager.Change]).
Proof.
  apply (test_publishes_change_iff_verdict_differs Scenario.yes
           (ConditionsManager.mk true 0 _ [] [("ready", ConditionsManager.OnReady)]));
    reflexivity.
Defined.

(** The scenario of the specification: ["a:{1} and not b:{2}"] is suitable
    while [a] asserts true and [b] false; when [b] turns true and its test
    publishes [change], the verdict turns false and one [change] goes out. *)
Example flipping_b_publishes_one_change :
  ConditionsManager.getSuitability Scenario.ready_manager = true
  /\ option_map Expression.resolved (ConditionsManager._expression Scenario.ready_manager)
     = Some true
  /\ exists cm',
       ConditionsManager.onTestChange Scenario.yes 1 Scenario.ready_manager
       = Ok (cm', [ConditionsManager.Change])
       /\ ConditionsManager.getSuitability cm' = false.
Proof. split; [reflexivity|]. split; [reflexivity|]. eexists. split; reflexivity. Qed.

(** A manager built without a condition string is suitable from the start,
    has no expression and waits for no test. *)
Lemma unconditioned_manager_is_suitable (fuel : nat) (conditions : value) :
  (forall s, conditions <> VStr s) ->
  exists cm,
    ConditionsManager.new fuel conditions = Some (Ok cm)
    /\ ConditionsManager.getSuitability cm = true
    /\ ConditionsManager._expression cm = None
    /\ ConditionsManager.loading cm = [].
Proof.
  intros Hno. destruct conditions; try (eexists; repeat split; reflexivity).
  exfalso. exact (Hno s eq_refl).
Qed.

(** Nothing the library can make such a manager do changes its verdict. *)
Lemma unconditioned_manager_keeps_verdict (env : Tester.assertions) (k : nat)
    (cm : ConditionsManager.t) :
  ConditionsManager._expression cm = None ->
  ConditionsManager.loading cm = [] ->
  (exists e, ConditionsManager.test env cm = Throw e)
  /\ ConditionsManager.onTestFound env k cm = Ok (cm, [])
  /\ ConditionsManager.onTestChange env k cm = Ok (cm, []).
Proof.
  intros He Hl. unfold ConditionsManager.test, ConditionsManager.onTestFound,
    ConditionsManager.onTestChange. rewrite He, Hl. repeat split. eexists. reflexivity.
Qed.

(** C6.  A controller given [conditions: null] (what
    [getAttribute('data-conditions')] answers when the attribute is absent) has
    a manager without expression that is suitable, and yet [isConditioned()]
    answers true. *)
Theorem null_conditions_reported_conditioned (fuel : nat) (options : value) :
  exists mc,
    ModuleController.new fuel "ui/Widget"
      {| ModuleController.conditions := VNull;
         ModuleController.module_options := options |} = Some (Ok mc)
    /\ ConditionsManager._expression (ModuleController._conditionsManager mc) = None
    /\ ConditionsManager.getSuitability (ModuleController._conditionsManager mc) = true
    /\ ModuleController.isConditioned mc = true.
Proof. eexists. repeat apply conj; reflexivity. Qed.

(** ** ExpressionFormatter.fromString and toString *)

(** The scenario of the specification: the parse of ["a:{1} and not b:{2}"]. *)
Example fromString_and_not :
  ExpressionFormatter.fromString 100 "a:{1} and not b:{2}"
  = Some (Ok (Expression.TBinary
                (Expression.TUnary Expression.SNull (Expression.CLeaf "a" "1") false)
                "and"
                (Expression.TUnary Expression.SNull (Expression.CLeaf "b" "2") true))).
Proof. vm_compute. reflexivity. Qed.

(** A string on which serialising and parsing again gives the same tree. *)
Example fromString_toString_nested :
  exists e,
    ExpressionFormatter.fromString 200
      "a:{1} and b:{2} or (c:{3} and not (d:{4} or e:{5}))" = Some (Ok e)
    /\ Expression.toString e
       = Ok "((a:{1} and b:{2}) or (c:{3} and not (d:{4} or e:{5})))"
    /\ ExpressionFormatter.fromString 200
         "((a:{1} and b:{2}) or (c:{3} and not (d:{4} or e:{5})))" = Some (Ok e).
Proof.
  eexists. repeat apply conj.
  - vm_compute. reflexivity.
  - vm_compute. reflexivity.
  - vm_compute. reflexivity.
Qed.

(** C7.  ["not (not a:{1})"] parses to a negation of a negated leaf and is
    serialised as ["not not a:{1}"]; at the start of the string the parser
    steps over the first [not] one character too far and never reads the
    second, so the serialised form parses to the negated leaf alone.  While
    test [a] asserts true the first tree is suitable and the second is not. *)
Theorem double_negation_does_not_round_trip :
  exists e e',
    ExpressionFormatter.fromString 100 "not (not a:{1})" = Some (Ok e)
    /\ e = Expression.TUnary
             (Expression.SExpr
                (Expression.TUnary Expression.SNull (Expression.CLeaf "a" "1") true))
             Expression.CNull true
    /\ Expression.toString e = Ok "not not a:{1}"
    /\ ExpressionFormatter.fromString 100 "not not a:{1}" = Some (Ok e')
    /\ e' = Expression.TUnary Expression.SNull (Expression.CLeaf "a" "1") true
    /\ Scenario.verdict 100 Scenario.only_a "not (not a:{1})" = Some (Ok true)
    /\ Scenario.verdict 100 Scenario.only_a "not not a:{1}" = Some (Ok false).
Proof.
  eexists _, _. repeat apply conj.
  - vm_compute. reflexivity.
  - vm_compute. reflexivity.
  - vm_compute. reflexivity.
  - vm_compute. reflexivity.
  - vm_compute. reflexivity.
  - vm_compute. reflexivity.
  - vm_compute. reflexivity.
Qed.

(** ** Node: election *)

Lemma other_available_instances mcs i b :
  map ModuleController._moduleInstance (snd (Node.other_available mcs i b))
  = map ModuleController._moduleInstance mcs.
Proof.
  revert i. induction mcs as [|mc rest IH]; intros i; [reflexivity|].
  cbn [Node.other_available]. specialize (IH (S i)).
  destruct (i =? b)%nat.
  - destruct (Node.other_available rest (S i) b) as [found rest']. cbn in *.
    f_equal. exact IH.
  - cbn [ModuleController.isAvailable].
    destruct (_ && _).
    + reflexivity.
    + destruct (Node.other_available rest (S i) b) as [found rest']. cbn in *.
      f_equal. exact IH.
Qed.

Lemma other_available_found mcs : forall i b a mca,
  mcs !! a = Some mca ->
  (i + a)%nat <> b ->
  ModuleController.isConditioned mca = true ->
  ModuleController.suitable mca = true ->
  fst (Node.other_available mcs i b) = true.
Proof.
  induction mcs as [|mc rest IH]; intros i b a mca Hlook Hne Hcond Hsuit;
    [discriminate Hlook|].
  cbn [Node.other_available].
  destruct a as [|a'].
  - cbn in Hlook. injection Hlook as ->.
    replace (i + 0)%nat with i in Hne by lia.
    destruct (Nat.eqb_spec i b) as [Heq|_]; [contradiction|].
    cbn [ModuleController.isAvailable]. unfold ModuleController.suitable in Hsuit. rewrite Hsuit.
    unfold ModuleController.isConditioned in *. cbn. rewrite Hcond. reflexivity.
  - cbn in Hlook.
    assert (Hrest : fst (Node.other_available rest (S i) b) = true).
    { apply (IH (S i) b a' mca Hlook); [lia | exact Hcond | exact Hsuit]. }
    destruct (i =? b)%nat.
    + destruct (Node.other_available rest (S i) b) as [found rest']. exact Hrest.
    + cbn [ModuleController.isAvailable]. destruct (_ && _); [reflexivity|].
      destruct (Node.other_available rest (S i) b) as [found rest']. exact Hrest.
Qed.

Lemma first_available_first mcs : forall i j,
  fst (Node.first_available mcs i) = Some j ->
  exists a mc,
    j = (i + a)%nat /\ mcs !! a = Some mc /\ ModuleController.suitable mc = true
    /\ forall a' mc', (a' < a)%nat -> mcs !! a' = Some mc' -> ModuleController.suitable mc' = false.
Proof.
  induction mcs as [|mc rest IH]; intros i j H; [discriminate H|].
  cbn [Node.first_available ModuleController.isAvailable] in H.
  destruct (ConditionsManager.getSuitability (ModuleController._conditionsManager mc))
    eqn:Hs.
  - cbn in H. injection H as <-. exists 0%nat, mc. repeat split; [lia | exact Hs |].
    intros a' mc' Hlt. lia.
  - destruct (Node.first_available rest (S i)) as [found rest'] eqn:Hrest.
    cbn in H. subst found.
    destruct (IH (S i) j) as (a & mc0 & -> & Hl & Hs0 & Hbefore);
      [rewrite Hrest; reflexivity|].
    exists (S a), mc0. repeat split; [lia | exact Hl | exact Hs0 |].
    intros [|a'] mc' Hlt Hl'.
    + cbn in Hl'. injection Hl' as <-. exact Hs.
    + cbn in Hl'. apply (Hbefore a' mc'); [lia | exact Hl'].
Qed.

(** C2, as amended.  The scan of [_getSuitableActiveModuleController] elects
    the first available controller.  When controller [b] reports [available]
    while another controller, conditioned, is available, the node returns at
    once: the active controller, the module instances and the pending loads
    are as before.  Hence [b] becomes the active controller only if no other
    conditioned controller is available. *)
Theorem available_does_not_preempt_conditioned
    (h : ModuleController.host) (fuel : nat) (w : Node.t) (b : nat) :
  (forall a,
     fst (Node._getSuitableActiveModuleController w) = Some a ->
     exists mc,
       Node._moduleControllers w !! a = Some mc /\ ModuleController.suitable mc = true
       /\ forall a' mc', (a' < a)%nat ->
            Node._moduleControllers w !! a' = Some mc' -> ModuleController.suitable mc' = false)
  /\ (forall a mca,
        a <> b ->
        Node._moduleControllers w !! a = Some mca ->
        ModuleController.isConditioned mca = true ->
        ModuleController.suitable mca = true ->
        exists w',
          Node._onModuleAvailable h (S fuel) b w = Some (Ok w')
          /\ Node._activeModuleController w' = Node._activeModuleController w
          /\ map ModuleController._moduleInstance (Node._moduleControllers w')
             = map ModuleController._moduleInstance (Node._moduleControllers w)
          /\ Node.requiring w' = Node.requiring w)
  /\ (forall w',
        Node._onModuleAvailable h fuel b w = Some (Ok w') ->
        Node._activeModuleController w <> Some b ->
        Node._activeModuleController w' = Some b ->
        forall a mca,
          a <> b ->
          Node._moduleControllers w !! a = Some mca ->
          ModuleController.isConditioned mca = true ->
          ModuleController.suitable mca = false).
Proof.
  split; [|split].
  - intros a H. unfold Node._getSuitableActiveModuleController in H.
    destruct (Node.first_available (Node._moduleControllers w) 0) as [found mcs] eqn:Hf.
    cbn in H. subst found.
    destruct (first_available_first (Node._moduleControllers w) 0 a)
      as (a0 & mc & Ha & Hl & Hs & Hbefore); [rewrite Hf; reflexivity|].
    cbn in Ha. subst a0. exists mc. repeat split; assumption.
  - intros a mca Hne Hl Hc Hs.
    pose proof (other_available_found (Node._moduleControllers w) 0 b a mca Hl
                  ltac:(cbn; exact Hne) Hc Hs) as Hfound.
    pose proof (other_available_instances (Node._moduleControllers w) 0 b) as Hinst.
    cbn [Node._onModuleAvailable].
    destruct (Node.other_available (Node._moduleControllers w) 0 b) as [found mcs].
    cbn in Hfound, Hinst. subst found.
    eexists. repeat split. exact Hinst.
  - intros w' Hrun Hold Hnew a mca Hne Hl Hc.
    destruct (ModuleController.suitable mca) eqn:Hs; [exfalso|reflexivity].
    pose proof (other_available_found (Node._moduleControllers w) 0 b a mca Hl
                  ltac:(cbn; exact Hne) Hc Hs) as Hfound.
    destruct fuel as [|fuel']; [discriminate Hrun|].
    cbn [Node._onModuleAvailable] in Hrun.
    destruct (Node.other_available (Node._moduleControllers w) 0 b) as [found mcs].
    cbn in Hfound. subst found.
    injection Hrun as <-. cbn in Hnew. contradiction.
Qed.

Lemma available_does_not_preempt_conditioned_witness :
  exists w',
    Node._onModuleAvailable Scenario.host 1 1 Scenario.first_elected = Some (Ok w')
    /\ Node._activeModuleController w' = Some 0%nat
    /\ map ModuleController._moduleInstance (Node._moduleControllers w')
       = map ModuleController._moduleInstance (Node._moduleControllers Scenario.first_elected)
    /\ Node.requiring w' = [0%nat].
Proof.
  destruct (available_does_not_preempt_conditioned Scenario.host 0 Scenario.first_elected 1)
    as (_ & Hkeep & _).
  destruct (Hkeep 0%nat
              (default (Scenario.loaded Scenario.bare)
                       (Node._moduleControllers Scenario.first_elected !! 0%nat)))
    as (w' & Hrun & Hactive & Hinst & Hreq);
    [lia | reflexivity | reflexivity | reflexivity |].
  exists w'. repeat split; assumption.
Defined.

(** With both bindings conditioned and available, the scan elects [A] and [B]
    reporting [available] right after leaves [A] the active controller. *)
Example conditioned_first_fit_is_kept :
  Node._activeModuleController Scenario.first_elected = Some 0%nat
  /\ fst (Node._getSuitableActiveModuleController Scenario.first_elected) = Some 0%nat
  /\ map (fun mc => fst (ModuleController.isAvailable mc))
         (Node._moduleControllers Scenario.first_elected) = [true; true].
Proof.
  repeat apply conj.
  - vm_compute. reflexivity.
  - vm_compute. reflexivity.
  - vm_compute. reflexivity.
Qed.

(** C2, as stated, fails when the first binding is unconditioned: the scan
    elects [A]; once the test of [B] asserts true, [B] reports [available]
    and becomes the active controller although [A] is still available and
    first. *)
Lemma unconditioned_binding_is_preempted :
  exists w0 w1 w2,
    Node.init Scenario.host 50 Scenario.plain_then_conditioned Scenario.no = Some (Ok w0)
    /\ Node.run Scenario.host 50 [Node.TestFound 1 0] w0 = Some (Ok w1)
    /\ Node._activeModuleController w1 = Some 0%nat
    /\ Node.run Scenario.host 50 [Node.Measure Scenario.yes; Node.TestChange 1 0] w1
       = Some (Ok w2)
    /\ map (fun mc => fst (ModuleController.isAvailable mc)) (Node._moduleControllers w2)
       = [true; true]
    /\ fst (Node._getSuitableActiveModuleController w2) = Some 0%nat
    /\ Node._activeModuleController w2 = Some 1%nat.
Proof.
  eexists _, _, _. repeat apply conj.
  - vm_compute. reflexivity.
  - vm_compute. reflexivity.
  - vm_compute. reflexivity.
  - vm_compute. reflexivity.
  - vm_compute. reflexivity.
  - vm_compute. reflexivity.
  - vm_compute. reflexivity.
Qed.

(** ** Node: one active binding *)

(** [_setActiveModuleController] on a node whose active controller [A] holds
    an instance: [A] loses its instance and the node's [unload] subscription
    before [B] is made active, subscribed to and asked to load. *)
Example setActive_unloads_the_previous_binding :
  exists w w',
    Scenario.after Scenario.both_conditioned Scenario.yes
      [Node.TestFound 0 0; Node.TestFound 1 0; Node.Required 0] = Some w
    /\ Node._activeModuleController w = Some 0%nat
    /\ Node.active w = [0%nat]
    /\ Node._setActiveModuleController Scenario.host 10 1 w = Some (Ok w')
    /\ Node._activeModuleController w' = Some 1%nat
    /\ Node.active w' = []
    /\ Node.requiring w' = [1%nat]
    /\ map (fun mc => map fst (ModuleController._subscriptions mc))
           (Node._moduleControllers w')
       = [["ready"; "available"]; ["ready"; "available"; "unload"]].
Proof.
  eexists _, _. repeat apply conj.
  - vm_compute. reflexivity.
  - vm_compute. reflexivity.
  - vm_compute. reflexivity.
  - vm_compute. reflexivity.
  - vm_compute. reflexivity.
  - vm_compute. reflexivity.
  - vm_compute. reflexivity.
  - vm_compute. reflexivity.
Qed.

(** C1.  Bindings [A] (unconditioned) and [B] (conditioned, suitable): when the
    test of [B] arrives the node elects [A] and asks for its module, then [B]
    reports [available] and replaces [A] before that module has come.  [A] is
    unloaded while it has no instance yet; when its module arrives it is still
    available and instantiates it, and so does [B]: both are active. *)
Theorem stale_load_activates_two_bindings :
  exists w0 w1,
    Node.init Scenario.host 50 Scenario.plain_then_conditioned Scenario.yes = Some (Ok w0)
    /\ Node.run Scenario.host 50
         [Node.TestFound 1 0; Node.Required 0; Node.Required 1] w0 = Some (Ok w1)
    /\ Node._activeModuleController w1 = Some 1%nat
    /\ Node.active w1 = [0%nat; 1%nat].
Proof.
  eexists _, _. repeat apply conj.
  - vm_compute. reflexivity.
  - vm_compute. reflexivity.
  - vm_compute. reflexivity.
  - vm_compute. reflexivity.
Qed.

(** * Further properties *)

(** ** Observer *)

(** X1.  [subscribe] always adds: the functions called for a type grow by the new
    one, also when it was subscribed before, and the other types are left
    alone. *)
Theorem subscribe_always_adds {H : Type} (subs : list (string * H))
    (type type' : string) (fn : H) :
  Observer.subscribed (Observer.subscribe subs type fn) type'
  = (Observer.subscribed subs type'
       ++ (if String.eqb type type' then [fn] else []))%list
  /\ Observer.subscribed (Observer.subscribe (Observer.subscribe subs type fn) type fn) type
     = (Observer.subscribed subs type ++ [fn; fn])%list.
Proof.
  assert (Hone : forall (l : list (string * H)) ty,
             Observer.subscribed (Observer.subscribe l type fn) ty
             = (Observer.subscribed l ty ++ (if String.eqb type ty then [fn] else []))%list).
  { intros l ty. unfold Observer.subscribed, Observer.subscribe, Observer.subscriptions.
    rewrite filter_app, map_app. f_equal.
    rewrite filter_cons. cbn [fst].
    destruct (String.eqb type ty) eqn:E.
    - rewrite decide_True by reflexivity. reflexivity.
    - rewrite decide_False by discriminate. reflexivity. }
  split; [apply Hone|].
  rewrite !Hone, String.eqb_refl, <- app_assoc. reflexivity.
Qed.

Lemma unsubscribe_no_match {H : Type} (same : H -> H -> bool)
    (subs : list (string * H)) (type : string) (fn : H) :
  existsb (fun s => String.eqb (fst s) type && same (snd s) fn) subs = false ->
  Observer.unsubscribe same subs type fn = subs.
Proof.
  induction subs as [|[ty f] rest IH]; intros Hno; [reflexivity|].
  cbn [existsb fst snd] in Hno. apply orb_false_iff in Hno as [Hhead Hrest].
  cbn [Observer.unsubscribe]. rewrite Hrest, Hhead. reflexivity.
Qed.

(** X2.  [unsubscribe] removes the last record with that type and function and
    nothing else; without such a record it changes nothing.  Subscribing and
    unsubscribing gives the subscriptions back. *)
Theorem unsubscribe_removes_last {H : Type} (same : H -> H -> bool)
    (before after : list (string * H)) (type : string) (fn fn' : H) :
  same fn' fn = true ->
  existsb (fun s => String.eqb (fst s) type && same (snd s) fn) after = false ->
  Observer.unsubscribe same (before ++ (type, fn') :: after)%list type fn
  = (before ++ after)%list
  /\ Observer.unsubscribe same after type fn = after
  /\ Observer.unsubscribe same (Observer.subscribe before type fn') type fn = before.
Proof.
  intros Hsame Hafter.
  assert (Hcut : forall pre post,
             existsb (fun s => String.eqb (fst s) type && same (snd s) fn) post = false ->
             Observer.unsubscribe same (pre ++ (type, fn') :: post)%list type fn
             = (pre ++ post)%list).
  { induction pre as [|[ty f] pre IH]; intros post Hpost.
    - cbn [app Observer.unsubscribe]. rewrite Hpost, String.eqb_refl, Hsame. reflexivity.
    - cbn [app Observer.unsubscribe].
      rewrite existsb_app. cbn [existsb fst snd].
      rewrite String.eqb_refl, Hsame, orb_true_r. cbn [andb orb].
      rewrite (IH post Hpost). reflexivity. }
  repeat apply conj.
  - apply Hcut, Hafter.
  - apply unsubscribe_no_match, Hafter.
  - unfold Observer.subscribe. rewrite (Hcut before []) by reflexivity.
    apply app_nil_r.
Qed.

Lemma unsubscribe_removes_last_witness :
  Observer.unsubscribe ModuleController.same_handler
    ([("unload", ModuleController.ActiveModuleUnloadBind)]
       ++ ("unload", ModuleController.ActiveModuleUnloadBind)
       :: [("ready", ModuleController.OnModuleReady)])%list
    "unload" ModuleController.ActiveModuleUnloadBind
  = [("unload", ModuleController.ActiveModuleUnloadBind);
     ("ready", ModuleController.OnModuleReady)].
Proof.
  apply (unsubscribe_removes_last ModuleController.same_handler
           [("unload", ModuleController.ActiveModuleUnloadBind)]
           [("ready", ModuleController.OnModuleReady)]
           "unload" ModuleController.ActiveModuleUnloadBind
           ModuleController.ActiveModuleUnloadBind); reflexivity.
Defined.

(** ** Utils.mergeObjects, where it returns *)



Lemma lookup_field_app_none k fs fs' :
  lookup_field k fs = None -> lookup_field k (fs ++ fs')%list = lookup_field k fs'.
Proof.
  induction fs as [|[k0 v0] fs IH]; cbn [lookup_field app]; [reflexivity|].
  destruct (String.eqb k k0); [discriminate|exact IH].
Qed.

Lemma set_field_fresh k v fs :
  lookup_field k fs = None -> set_field k v fs = (fs ++ [(k, v)])%list.
Proof.
  induction fs as [|[k0 v0] fs IH]; cbn [lookup_field set_field app]; [reflexivity|].
  destruct (String.eqb k k0); [discriminate|]. intros H. rewrite (IH H). reflexivity.
Qed.

Lemma copy_fields_fresh : forall fs dst,
  NoDup (map fst fs) ->
  (forall k, k ∈ map fst fs -> lookup_field k dst = None) ->
  Utils.copy_fields fs dst = (dst ++ fs)%list.
Proof.
  unfold Utils.copy_fields.
  induction fs as [|[k v] fs IH]; intros dst Hnd Hfresh; cbn [fold_left fst snd map] in *.
  - symmetry. apply app_nil_r.
  - apply NoDup_cons in Hnd as [Hk Hnd].
    rewrite (set_field_fresh k v dst) by (apply Hfresh; left).
    rewrite IH; [rewrite <- app_assoc; reflexivity | exact Hnd |].
    intros k' Hk'. rewrite lookup_field_app_none by (apply Hfresh; right; exact Hk').
    cbn [lookup_field]. destruct (String.eqb_spec k' k) as [->|_]; [contradiction|reflexivity].
Qed.

Lemma mergeObjects_object target fs :
  Utils.mergeObjects target (VObj fs)
  = Utils.each_key target fs (Utils.target_fields target).
Proof. reflexivity. Qed.

Lemma mergeObjects_array target es :
  Utils.mergeObjects target (VArr es)
  = Utils.each_entry (if truthy target then target else VArr []) es 0
      (Utils.concat_onto_empty (if truthy target then target else VArr [])).
Proof. reflexivity. Qed.

Lemma each_key_cons target key v fs dst :
  Utils.each_key target ((key, v) :: fs) dst
  = let* m := Utils.merged_entry target key v in
    Utils.each_key target fs (set_field key m dst).
Proof.
  unfold Utils.merged_entry. cbn [Utils.each_key].
  destruct (negb (typeof_object v) || negb (truthy v)); [reflexivity|].
  destruct (get_prop target key) as [tk|]; [|reflexivity].
  destruct (negb (truthy tk)); [reflexivity|].
  destruct (Utils.mergeObjects tk v); reflexivity.
Qed.




Lemma each_key_flat target : forall fs dst,
  Forall (fun kv => typeof_object (snd kv) = false \/ truthy (snd kv) = false) fs ->
  Utils.each_key target fs dst = Ok (VObj (Utils.copy_fields fs dst)).
Proof.
  induction fs as [|[k v] fs IH]; intros dst Hflat; [reflexivity|].
  apply Forall_cons in Hflat as [Hv Hflat]. cbn [snd] in Hv.
  rewrite each_key_cons. unfold Utils.merged_entry.
  replace (negb (typeof_object v) || negb (truthy v)) with true
    by (destruct Hv as [-> | ->]; cbn; rewrite ?orb_true_r; reflexivity).
  cbn [bind]. rewrite (IH _ Hflat). reflexivity.
Qed.

(** X4.  A declaration whose values are not objects never makes the merge throw,
    whatever the defaults are, [undefined] and [null] included: its keys are
    written over a copy of the defaults.  Merging [undefined], [null] or [{}]
    into an object with distinct keys gives an equal object back. *)
Theorem mergeObjects_flat_declaration (target : value) (fs : list (string * value)) :
  Forall (fun kv => typeof_object (snd kv) = false \/ truthy (snd kv) = false) fs ->
  Utils.mergeObjects target (VObj fs)
  = Ok (VObj (Utils.copy_fields fs (Utils.target_fields target)))
  /\ (forall tfs,
        target = VObj tfs -> NoDup (map fst tfs) ->
        Utils.mergeObjects target (VObj []) = Ok target
        /\ Utils.mergeObjects target VUndefined = Ok target
        /\ Utils.mergeObjects target VNull = Ok target).
Proof.
  intros Hflat. split.
  - rewrite mergeObjects_object. apply each_key_flat, Hflat.
  - intros tfs -> Hnd.
    assert (Hcopy : Utils.target_fields (VObj tfs) = tfs).
    { unfold Utils.target_fields. cbn [truthy typeof_object andb own_fields].
      rewrite (copy_fields_fresh tfs [] Hnd); [reflexivity|]. intros; reflexivity. }
    repeat apply conj.
    + rewrite mergeObjects_object. cbn [Utils.each_key]. rewrite Hcopy. reflexivity.
    + cbn [Utils.mergeObjects truthy]. rewrite Hcopy. reflexivity.
    + cbn [Utils.mergeObjects truthy]. rewrite Hcopy. reflexivity.
Qed.

Lemma mergeObjects_flat_declaration_witness :
  Utils.mergeObjects VUndefined (VObj [("a", VNum 1); ("b", VNull)])
  = Ok (VObj [("a", VNum 1); ("b", VNull)]).
Proof.
  apply (mergeObjects_flat_declaration VUndefined [("a", VNum 1); ("b", VNull)]).
  constructor; [left; reflexivity|].
  constructor; [right; reflexivity|].
  constructor.
Defined.

Lemma each_entry_scalars (t : list value) : forall es i dst,
  Forall (fun e => typeof_object e = false) es ->
  Utils.each_entry (VArr t) es i dst
  = Ok (VArr (dst ++ List.filter (fun e => negb (existsb (strict_eq e) t)) es)).
Proof.
  induction es as [|e es IH]; intros i dst Hs.
  - cbn [Utils.each_entry List.filter]. rewrite app_nil_r. reflexivity.
  - apply Forall_cons in Hs as [He Hs]. cbn [Utils.each_entry List.filter].
    rewrite He. cbn [Utils.indexOf_is_minus_one bind].
    rewrite (IH _ _ Hs).
    destruct (negb (existsb (strict_eq e) t)); [rewrite <- app_assoc|]; reflexivity.
Qed.

(** X5.  Two arrays, the declared one without objects: the result is the defaults
    followed by the declared entries that no default entry is strictly equal
    to.  An entry is compared with the defaults only, so one that the
    declaration repeats is added each time.  Without a defaults array the
    declared array comes back as it is. *)
Theorem mergeObjects_scalar_arrays (t es : list value) :
  Forall (fun e => typeof_object e = false) es ->
  Utils.mergeObjects (VArr t) (VArr es)
  = Ok (VArr (t ++ List.filter (fun e => negb (existsb (strict_eq e) t)) es))
  /\ Utils.mergeObjects VUndefined (VArr es) = Ok (VArr es)
  /\ Utils.mergeObjects VNull (VArr es) = Ok (VArr es).
Proof.
  intros Hs.
  assert (Hall : List.filter (fun e => negb (existsb (strict_eq e) [])) es = es).
  { clear Hs. induction es as [|e es IH]; [reflexivity|].
    change (e :: List.filter (fun e => negb (existsb (strict_eq e) [])) es = e :: es).
    rewrite IH. reflexivity. }
  repeat apply conj.
  - rewrite mergeObjects_array. cbn [truthy Utils.concat_onto_empty].
    apply each_entry_scalars, Hs.
  - rewrite mergeObjects_array. cbn [truthy Utils.concat_onto_empty].
    rewrite (each_entry_scalars [] es 0 [] Hs), Hall. reflexivity.
  - rewrite mergeObjects_array. cbn [truthy Utils.concat_onto_empty].
    rewrite (each_entry_scalars [] es 0 [] Hs), Hall. reflexivity.
Qed.

Lemma mergeObjects_scalar_arrays_witness :
  Utils.mergeObjects (VArr [VNum 1; VStr "x"]) (VArr [VNum 2; VNum 1; VNum 2])
  = Ok (VArr [VNum 1; VStr "x"; VNum 2; VNum 2]).
Proof.
  apply (mergeObjects_scalar_arrays [VNum 1; VStr "x"] [VNum 2; VNum 1; VNum 2]).
  repeat constructor.
Defined.

(** ** ExpressionFormatter.getExpressionsCount, where it returns *)

Lemma count_openers_positive : forall pre post,
  exists n, ExpressionFormatter.count_openers (pre ++ ":{" ++ post) = S n.
Proof.
  induction pre as [|c pre IH]; intros post.
  - eexists. reflexivity.
  - destruct (IH post) as (n & Hn).
    change ((String c pre) ++ ":{" ++ post) with (String c (pre ++ ":{" ++ post)).
    cbn [ExpressionFormatter.count_openers].
    destruct (pre ++ ":{" ++ post) as [|d rest] eqn:Htail; [discriminate Hn|].
    destruct c as [[] [] [] [] [] [] [] []]; try (exists n; exact Hn).
    destruct d as [[] [] [] [] [] [] [] []]; try (exists n; exact Hn).
    eexists. reflexivity.
Qed.

Lemma classic_leaf (s : string) :
  (exists pre post, s = pre ++ ":{" ++ post)
  \/ (forall pre post, s <> pre ++ ":{" ++ post).
Proof.
  induction s as [|c s IH].
  - right. intros [|c pre] post; discriminate.
  - destruct IH as [(pre & post & ->)|Hno].
    + left. exists (String c pre), post. reflexivity.
    + destruct (Ascii.eqb_spec c ":") as [->|Hc].
      * destruct s as [|d s'].
        -- right. intros [|c0 [|c1 pre]] post H; try discriminate H.
        -- destruct (Ascii.eqb_spec d "{") as [->|Hd].
           ++ left. exists EmptyString, s'. reflexivity.
           ++ right. intros [|c0 pre] post H.
              ** injection H as H. congruence.
              ** injection H as _ H. exact (Hno pre post H).
      * right. intros [|c0 pre] post H.
        -- injection H as H _. congruence.
        -- injection H as _ H. exact (Hno pre post H).
Qed.

(** X6.  A condition string in which [:{] occurs gets a count of at least one, and
    only such a string gets a count at all. *)
Theorem getExpressionsCount_returns_iff_leaf (s : string) :
  (exists pre post, s = pre ++ ":{" ++ post)
  <-> (exists n, ExpressionFormatter.getExpressionsCount s = Ok (S n)).
Proof.
  split.
  - intros (pre & post & ->). destruct (count_openers_positive pre post) as (n & Hn).
    exists n. unfold ExpressionFormatter.getExpressionsCount. rewrite Hn. reflexivity.
  - intros (n & Hn).
    destruct (classic_leaf s) as [Hyes|Hno]; [exact Hyes|].
    unfold ExpressionFormatter.getExpressionsCount in Hn.
    rewrite (count_openers_zero s Hno) in Hn. discriminate Hn.
Qed.

Lemma getExpressionsCount_returns_iff_leaf_witness :
  exists n, ExpressionFormatter.getExpressionsCount "a:{1} and not b:{2}" = Ok (S n).
Proof.
  apply (proj1 (getExpressionsCount_returns_iff_leaf "a:{1} and not b:{2}")).
  exists "a", "1} and not b:{2}". reflexivity.
Defined.

(** ** Evaluation of expression trees *)

Lemma tester_succeeds_cached env env' tester r tester' :
  Tester.succeeds env tester = (r, tester') ->
  Tester.succeeds env' tester' = (r, tester') /\ Tester.peek env' tester' = r.
Proof.
  unfold Tester.succeeds, Tester.peek. destruct tester as [test expected result changed].
  cbn. destruct changed; intros H; injection H as <- <-; cbn; split; reflexivity.
Qed.

Lemma succeeds_keeps_kind env e v e' :
  Expression.succeeds env e = Ok (v, e') ->
  Expression.is_expression e' = true /\ Expression.is_expression e = true.
Proof.
  destruct e as [s|l| |x c n|a o b]; cbn [Expression.succeeds]; try discriminate.
  - destruct x as [|tester| |e1]; try discriminate.
    + destruct (Tester.succeeds env tester). intros H; injection H as <- <-. split; reflexivity.
    + intros H; injection H as <- <-. split; reflexivity.
    + destruct (Expression.is_expression e1).
      * destruct (Expression.succeeds env e1) as [[r e1']|]; cbn [bind]; [|discriminate].
        intros H; injection H as <- <-. split; reflexivity.
      * destruct e1; try discriminate; intros H; injection H as <- <-; split; reflexivity.
  - destruct (Expression.succeeds env a) as [[ra a']|]; cbn [bind]; [|discriminate].
    destruct (String.eqb o "and"), ra;
      try (intros H; injection H as <- <-; split; reflexivity);
      (destruct (Expression.succeeds env b) as [[rb b']|]; cbn [bind]; [|discriminate];
       intros H; injection H as <- <-; split; reflexivity).
Qed.

Lemma succeeds_cached (env : Tester.assertions) :
  forall e v e',
    Expression.succeeds env e = Ok (v, e') ->
    forall env', Expression.succeeds env' e' = Ok (v, e').
Proof.
  fix IH 1. intros [s|l| |x c n|a o b] v e' H env'; cbn [Expression.succeeds] in H;
    try discriminate H.
  - destruct x as [|tester| |e1]; try discriminate H.
    + destruct (Tester.succeeds env tester) as [r tester'] eqn:Ht.
      injection H as <- <-. cbn [Expression.succeeds].
      destruct (tester_succeeds_cached env env' _ _ _ Ht) as [-> _]. reflexivity.
    + injection H as <- <-. reflexivity.
    + destruct (Expression.is_expression e1) eqn:Hk.
      * destruct (Expression.succeeds env e1) as [[r e1']|] eqn:H1; cbn [bind] in H;
          [|discriminate H].
        injection H as <- <-. cbn [Expression.succeeds].
        destruct (succeeds_keeps_kind env e1 r e1' H1) as [-> _].
        rewrite (IH e1 r e1' H1 env'). reflexivity.
      * destruct e1; try discriminate Hk; try discriminate H; injection H as <- <-;
          cbn [Expression.succeeds Expression.is_expression]; reflexivity.
  - destruct (Expression.succeeds env a) as [[ra a']|] eqn:Ha; cbn [bind] in H;
      [|discriminate H].
    pose proof (IH a ra a' Ha env') as Ha'.
    destruct (String.eqb o "and") eqn:Ho, ra.
    + destruct (Expression.succeeds env b) as [[rb b']|] eqn:Hb; cbn [bind] in H;
        [|discriminate H].
      injection H as <- <-. cbn [Expression.succeeds].
      rewrite Ha', Ho. cbn [bind]. rewrite (IH b rb b' Hb env'). reflexivity.
    + injection H as <- <-. cbn [Expression.succeeds]. rewrite Ha', Ho. reflexivity.
    + injection H as <- <-. cbn [Expression.succeeds]. rewrite Ha', Ho. reflexivity.
    + destruct (Expression.succeeds env b) as [[rb b']|] eqn:Hb; cbn [bind] in H;
        [|discriminate H].
      injection H as <- <-. cbn [Expression.succeeds].
      rewrite Ha', Ho. cbn [bind]. rewrite (IH b rb b' Hb env'). reflexivity.
Qed.


(** X7.  Once a tree has been evaluated, evaluating it again gives the same verdict
    and leaves it as it is, whatever the tests would assert by then: every
    tester that was asked answers from its cache until its test publishes
    [change]. *)
Theorem succeeds_again_is_cached (env env' : Tester.assertions)
    (e e' : Expression.item) (v : bool) :
  Expression.succeeds env e = Ok (v, e') ->
  Expression.succeeds env' e' = Ok (v, e').
Proof. intros H. exact (succeeds_cached env e v e' H env'). Qed.

Lemma succeeds_again_is_cached_witness :
  Expression.succeeds Scenario.no
    (Expression.TUnary
       (Expression.STester (Tester.mk "a" (VStr "1") (VBool true) false))
       (Expression.CLeaf "a" "1") false)
  = Ok (true,
        Expression.TUnary
          (Expression.STester (Tester.mk "a" (VStr "1") (VBool true) false))
          (Expression.CLeaf "a" "1") false).
Proof.
  apply (succeeds_again_is_cached Scenario.yes Scenario.no
           (Expression.TUnary
              (Expression.STester (Tester.mk "a" (VStr "1") (VBool false) true))
              (Expression.CLeaf "a" "1") false)).
  reflexivity.
Defined.



(** ** ConditionsManager.test *)

(** X9.  [test()] signals once: after a call that returned, a second call, with no
    [change] of a test in between, publishes nothing and leaves the manager as
    it is, also when the tests would assert something else by then. *)
Theorem test_again_publishes_nothing (env env' : Tester.assertions)
    (cm cm' : ConditionsManager.t) (events : list ConditionsManager.event) :
  ConditionsManager.test env cm = Ok (cm', events) ->
  ConditionsManager.test env' cm' = Ok (cm', []).
Proof.
  unfold ConditionsManager.test. intros H.
  destruct (ConditionsManager._expression cm) as [e|]; [|discriminate H].
  destruct (Expression.succeeds env e) as [[v e']|err] eqn:Hs; cbn [bind] in H;
    [|discriminate H].
  pose proof (succeeds_cached env e v e' Hs env') as Hagain.
  destruct (xorb v (ConditionsManager._suitable cm)) eqn:Hx;
    injection H as <- <-; cbn [ConditionsManager._expression ConditionsManager._suitable];
    rewrite Hagain; cbn [bind].
  - rewrite xorb_nilpotent. reflexivity.
  - rewrite Hx. reflexivity.
Qed.

Lemma test_again_publishes_nothing_witness :
  exists cm',
    ConditionsManager.test Scenario.yes
      (ConditionsManager.mk false 0
         (Some (Expression.TUnary
                  (Expression.STester (Tester.mk "a" (VStr "1") (VBool false) true))
                  (Expression.CLeaf "a" "1") false))
         [] [])
    = Ok (cm', [ConditionsManager.Change])
    /\ ConditionsManager.test Scenario.no cm' = Ok (cm', []).
Proof.
  eexists. split; [reflexivity|].
  apply (test_again_publishes_nothing Scenario.yes Scenario.no
           (ConditionsManager.mk false 0
              (Some (Expression.TUnary
                       (Expression.STester (Tester.mk "a" (VStr "1") (VBool false) true))
                       (Expression.CLeaf "a" "1") false))
              [] [])
           _ [ConditionsManager.Change]).
  reflexivity.
Defined.

(** ** ModuleController: load, unload, execute *)



(** X11.  What [load()] can do when it returns.  While the module has not been
    required yet it only asks for it.  Once the module is there, a controller
    whose conditions are not suitable stays as it is, without instance and
    event; otherwise it holds an instance, is available, and has published
    [load] after setting the propagation target. *)
Theorem load_outcome (h : ModuleController.host) (mc mc' : ModuleController.t)
    (effects : list ModuleController.effect) :
  (ModuleController._Module mc = None ->
   ModuleController.load h mc = Ok (mc, [ModuleController.Require (ModuleController._path mc)]))
  /\ (ModuleController._Module mc <> None ->
      ModuleController.load h mc = ModuleController._onLoad h mc)
  /\ (ModuleController._onLoad h mc = Ok (mc', effects) ->
      (ModuleController.suitable mc = false
       /\ mc' = ModuleController.set_available false mc
       /\ effects = [])
      \/ (ModuleController.suitable mc = true
          /\ ModuleController.isActive mc' = true
          /\ ModuleController._available mc' = true
          /\ effects = [ModuleController.SetupPropagationTarget;
                        ModuleController.Publish "load"])).
Proof.
  repeat apply conj.
  - intros H. unfold ModuleController.load. rewrite H. reflexivity.
  - intros H. unfold ModuleController.load.
    destruct (ModuleController._Module mc); [reflexivity|contradiction].
  - unfold ModuleController._onLoad, ModuleController.isAvailable,
      ModuleController.suitable.
    destruct (ConditionsManager.getSuitability (ModuleController._conditionsManager mc)).
    + cbn [negb]. intros H. right.
      destruct (match ModuleController.module_options _ with VStr s => _ | _ => _ end)
        as [elementOptions|]; cbn [bind] in H; [|discriminate H].
      destruct (if truthy _ then _ else _) as [options|]; cbn [bind] in H;
        [|discriminate H].
      cbn [ModuleController._Module ModuleController.set_available] in H.
      destruct (ModuleController._Module mc) as [Module|]; [|discriminate H].
      destruct (Module options) as [inst|]; cbn [bind] in H; [|discriminate H].
      injection H as <- <-. repeat apply conj; reflexivity.
    + cbn [negb]. intros H. injection H as <- <-. left. repeat apply conj; reflexivity.
Qed.

Lemma load_outcome_witness :
  ModuleController.load Scenario.host
    (ModuleController.mk "A" Scenario.unconditioned None None
       (ConditionsManager.mk true 0 None [] []) true false [])
  = Ok (ModuleController.mk "A" Scenario.unconditioned None None
          (ConditionsManager.mk true 0 None [] []) true false [],
        [ModuleController.Require "A"]).
Proof.
  apply (load_outcome Scenario.host
           (ModuleController.mk "A" Scenario.unconditioned None None
              (ConditionsManager.mk true 0 None [] []) true false [])
           (Scenario.loaded Scenario.widget) []).
  reflexivity.
Defined.

(** X12.  When [execute] returns, the status tells whether the controller is
    active: 404 without a module instance, 200 with one. *)
Theorem execute_status (mc : ModuleController.t) (method : string)
    (params : list value) (r : ModuleController.response) :
  ModuleController.execute mc method params = Ok r ->
  (ModuleController.isActive mc = false
   /\ ModuleController.status r = 404%Z /\ ModuleController.response_data r = VNull)
  \/ (ModuleController.isActive mc = true /\ ModuleController.status r = 200%Z).
Proof.
  unfold ModuleController.execute, ModuleController.isActive.
  destruct (ModuleController._moduleInstance mc) as [inst|].
  - destruct (ModuleController.missing _); [discriminate|].
    destruct (ModuleController.property inst method) as [[f|v]|]; try discriminate.
    destruct (f params); cbn [bind]; [|discriminate].
    intros H; injection H as <-. right. split; reflexivity.
  - intros H; injection H as <-. left. repeat apply conj; reflexivity.
Qed.

Lemma execute_status_witness :
  (ModuleController.isActive (Scenario.loaded Scenario.widget) = false
   /\ 200%Z = 404%Z /\ VArr [] = VNull)
  \/ (ModuleController.isActive (Scenario.loaded Scenario.widget) = true /\ 200%Z = 200%Z).
Proof.
  apply (execute_status (Scenario.loaded Scenario.widget) "greet" []
           {| ModuleController.status := 200; ModuleController.response_data := VArr [] |}).
  reflexivity.
Defined.

(** ** Node: looking controllers up by path *)

Lemma filter_from_spec (path : string) : forall mcs i acc,
  exists l,
    Node.filter_from mcs i path false acc = inr (acc ++ l)%list
    /\ (forall acc', Node.filter_from mcs i path true acc' = inl (head l))
    /\ (forall j, j ∈ l <->
          exists a mc, j = (i + a)%nat /\ mcs !! a = Some mc
                       /\ ModuleController.matchesPath mc path = true)
    /\ (forall j, head l = Some j ->
          forall a mc, (i + a < j)%nat -> mcs !! a = Some mc ->
                       ModuleController.matchesPath mc path = false).
Proof.
  induction mcs as [|mc rest IH]; intros i acc.
  - exists []. cbn [Node.filter_from]. rewrite app_nil_r. repeat apply conj.
    + reflexivity.
    + reflexivity.
    + intros j. split; [intros H; inversion H|].
      intros (a & mc & _ & H & _). discriminate H.
    + discriminate.
  - cbn [Node.filter_from].
    destruct (ModuleController.matchesPath mc path) eqn:Hm.
    + destruct (IH (S i) (acc ++ [i])%list) as (l & Hall & Hone & Hin & Hmin).
      exists (i :: l). repeat apply conj.
      * rewrite Hall, <- app_assoc. reflexivity.
      * reflexivity.
      * intros j. rewrite elem_of_cons, Hin. split.
        -- intros [->|(a & mc' & -> & Hl & Hp)].
           ++ exists 0%nat, mc. repeat apply conj; [lia|reflexivity|exact Hm].
           ++ exists (S a), mc'. repeat apply conj; [lia|exact Hl|exact Hp].
        -- intros ([|a] & mc' & -> & Hl & Hp).
           ++ left. lia.
           ++ right. exists a, mc'. repeat apply conj; [lia|exact Hl|exact Hp].
      * cbn [head]. intros j Hj. injection Hj as <-. intros a mc' Hlt. lia.
    + destruct (IH (S i) acc) as (l & Hall & Hone & Hin & Hmin).
      exists l. repeat apply conj.
      * exact Hall.
      * exact Hone.
      * intros j. rewrite Hin. split.
        -- intros (a & mc' & -> & Hl & Hp). exists (S a), mc'.
           repeat apply conj; [lia|exact Hl|exact Hp].
        -- intros ([|a] & mc' & -> & Hl & Hp).
           ++ cbn in Hl. injection Hl as <-. congruence.
           ++ exists a, mc'. repeat apply conj; [lia|exact Hl|exact Hp].
      * intros j Hj [|a] mc' Hlt Hl.
        -- cbn in Hl. injection Hl as <-. exact Hm.
        -- apply (Hmin j Hj a mc'); [lia|exact Hl].
Qed.

(** X13.  [getModuleControllerAllByPath] answers the controllers whose path is the
    one asked for, and only those; [getModuleControllerByPath] answers the
    first of them, the one declared earliest, or [null] when there is none. *)
Theorem controllers_by_path (w : Node.t) (path : string) :
  exists l,
    Node.getModuleControllerAllByPath w path = inr l
    /\ Node.getModuleControllerByPath w path = inl (head l)
    /\ (forall j, j ∈ l <->
          exists mc, Node._moduleControllers w !! j = Some mc
                     /\ ModuleController._path mc = path)
    /\ (forall j, head l = Some j ->
          forall a mc, (a < j)%nat -> Node._moduleControllers w !! a = Some mc ->
                       ModuleController._path mc <> path).
Proof.
  destruct (filter_from_spec path (Node._moduleControllers w) 0 [])
    as (l & Hall & Hone & Hin & Hmin).
  exists l. repeat apply conj.
  - exact Hall.
  - apply Hone.
  - intros j. rewrite Hin. split.
    + intros (a & mc & -> & Hl & Hp). exists mc. split; [exact Hl|].
      apply String.eqb_eq, Hp.
    + intros (mc & Hl & Hp). exists j, mc. repeat apply conj; [reflexivity|exact Hl|].
      apply String.eqb_eq, Hp.
  - intros j Hj a mc Hlt Hl Hp.
    pose proof (Hmin j Hj a mc Hlt Hl) as Hno.
    unfold ModuleController.matchesPath in Hno. rewrite Hp, String.eqb_refl in Hno.
    discriminate Hno.
Qed.

Lemma controllers_by_path_witness :
  exists l,
    Node.getModuleControllerAllByPath Scenario.first_elected "B" = inr l
    /\ Node.getModuleControllerByPath Scenario.first_elected "B" = inl (head l).
Proof.
  destruct (controllers_by_path Scenario.first_elected "B") as (l & Hall & Hone & _).
  exists l. split; assumption.
Defined.

Lemma subscribe_appends {H : Type} (subs : list (string * H))
    (type type' : string) (fn : H) :
  Observer.subscribed (Observer.subscribe subs type fn) type'
  = (Observer.subscribed subs type'
       ++ (if String.eqb type type' then [fn] else []))%list.
Proof.
  unfold Observer.subscribed, Observer.subscribe, Observer.subscriptions.
  rewrite filter_app, map_app. f_equal.
  rewrite filter_cons. cbn [fst].
  destruct (String.eqb type type') eqn:E.
  - rewrite decide_True by reflexivity. reflexivity.
  - rewrite decide_False by discriminate. reflexivity.
Qed.

(** ** Node: replacing and losing the active controller *)

Lemma publish_eq h fuel i type w :
  Node.publish h (S fuel) i type w
  = let+ mc := lift (Node.controller i w) in
    (fix call (fns : list ModuleController.handler) (w : Node.t)
       : option (result Node.t) :=
       match fns with
       | [] => lift (Ok w)
       | fn :: fns' =>
           let+ w := match fn with
                     | ModuleController.OnModuleReady => Node._onModuleReady h fuel w
                     | ModuleController.OnModuleAvailable =>
                         Node._onModuleAvailable h fuel i w
                     | ModuleController.ActiveModuleUnloadBind =>
                         Node._onActiveModuleUnload h fuel w
                     end in
           call fns' w
       end) (Observer.subscribed (ModuleController._subscriptions mc) type) w.
Proof. reflexivity. Qed.

Lemma publish_nobody h fuel i type w mc :
  Node._moduleControllers w !! i = Some mc ->
  Observer.subscribed (ModuleController._subscriptions mc) type = [] ->
  Node.publish h (S fuel) i type w = Some (Ok w).
Proof.
  intros Hl Hs. rewrite publish_eq. unfold Node.controller. rewrite Hl. cbn.
  rewrite Hs. reflexivity.
Qed.

Lemma publish_unload_bind h fuel i w mc :
  Node._moduleControllers w !! i = Some mc ->
  Observer.subscribed (ModuleController._subscriptions mc) "unload"
  = [ModuleController.ActiveModuleUnloadBind] ->
  Node.publish h (S fuel) i "unload" w
  = let+ w' := Node._onActiveModuleUnload h fuel w in lift (Ok w').
Proof.
  intros Hl Hs. rewrite publish_eq. unfold Node.controller. rewrite Hl. cbn.
  rewrite Hs. reflexivity.
Qed.

Lemma perform_nil h fuel i w : Node.perform h (S fuel) i [] w = Some (Ok w).
Proof. reflexivity. Qed.

Lemma perform_cons h fuel i effect rest w :
  Node.perform h (S fuel) i (effect :: rest) w
  = match effect with
    | ModuleController.Require _ =>
        Node.perform h (S fuel) i rest
          (Node.set_requiring (Node.requiring w ++ [i])%list w)
    | ModuleController.Publish type =>
        let+ w' := Node.publish h fuel i type w in Node.perform h (S fuel) i rest w'
    | _ => Node.perform h (S fuel) i rest w
    end.
Proof. destruct effect; reflexivity. Qed.

Lemma unload_eq h fuel i w :
  Node.unload h (S fuel) i w
  = let+ mc := lift (Node.controller i w) in
    let+ (unloaded, mc', effects) := lift (ModuleController.unload mc) in
    let+ w' := Node.perform h fuel i effects (Node.update i mc' w) in
    lift (Ok (unloaded, w')).
Proof. reflexivity. Qed.

Lemma load_eq h fuel i w :
  Node.load h (S fuel) i w
  = let+ mc := lift (Node.controller i w) in
    let+ (mc', effects) := lift (ModuleController.load h mc) in
    Node.perform h fuel i effects (Node.update i mc' w).
Proof. reflexivity. Qed.

Lemma cleanActive_eq h fuel w :
  Node._cleanActiveModuleController h (S fuel) w
  = match Node._activeModuleController w with
    | None => lift (Ok w)
    | Some a =>
        let+ mc := lift (Node.controller a w) in
        let w1 := Node.update a
                    (ModuleController.set_subscriptions
                       (Observer.unsubscribe ModuleController.same_handler
                          (ModuleController._subscriptions mc) "unload"
                          ModuleController.ActiveModuleUnloadBind) mc) w in
        let+ (_, w2) := Node.unload h fuel a w1 in
        lift (Ok (Node.set_active None w2))
    end.
Proof. reflexivity. Qed.

Lemma setActive_eq h fuel m w :
  Node._setActiveModuleController h (S fuel) m w
  = if bool_decide (Node._activeModuleController w = Some m) then lift (Ok w)
    else
      let+ w1 := Node._cleanActiveModuleController h fuel w in
      let w2 := Node.set_active (Some m) w1 in
      let+ mc := lift (Node.controller m w2) in
      let w3 := Node.update m
                  (ModuleController.set_subscriptions
                     (Observer.subscribe (ModuleController._subscriptions mc) "unload"
                        ModuleController.ActiveModuleUnloadBind) mc) w2 in
      Node.load h fuel m w3.
Proof. reflexivity. Qed.

Lemma onActiveModuleUnload_eq h fuel w :
  Node._onActiveModuleUnload h (S fuel) w
  = let+ w1 := Node._cleanActiveModuleController h fuel w in
    let (moduleController, w2) := Node._getSuitableActiveModuleController w1 in
    match moduleController with
    | None => lift (Ok w2)
    | Some m => Node._setActiveModuleController h fuel m w2
    end.
Proof. reflexivity. Qed.

Lemma unload_shape mc mc' unloaded effects :
  ModuleController.unload mc = Ok (unloaded, mc', effects) ->
  ModuleController._subscriptions mc' = ModuleController._subscriptions mc
  /\ ModuleController._conditionsManager mc' = ModuleController._conditionsManager mc
  /\ ModuleController.isActive mc' = false
  /\ ((unloaded = false /\ effects = [] /\ ModuleController.isActive mc = false)
      \/ (unloaded = true /\ ModuleController.isActive mc = true
          /\ exists hook,
               effects = (ModuleController.RemovePropagationTarget
                            :: hook ++ [ModuleController.Publish "unload"])%list
               /\ Forall (fun e => e = ModuleController.InstanceUnload) hook)).
Proof.
  destruct mc as [path opts Module inst cm ready available subs].
  unfold ModuleController.unload, ModuleController.set_available,
    ModuleController.set_instance, ModuleController.isActive. cbn.
  destruct inst as [inst|].
  - destruct (ModuleController.property inst "unload") as [[f|v]|]; cbn.
    + destruct (f []); cbn; [|discriminate]. intros H; injection H as <- <- <-.
      cbn. repeat apply conj; try reflexivity. right. repeat apply conj; try reflexivity.
      exists [ModuleController.InstanceUnload]. split; [reflexivity|].
      repeat constructor.
    + destruct (truthy v); cbn; [discriminate|]. intros H; injection H as <- <- <-.
      cbn. repeat apply conj; try reflexivity. right. repeat apply conj; try reflexivity.
      exists []. split; [reflexivity|constructor].
    + intros H; injection H as <- <- <-.
      cbn. repeat apply conj; try reflexivity. right. repeat apply conj; try reflexivity.
      exists []. split; [reflexivity|constructor].
  - intros H; injection H as <- <- <-. cbn. repeat apply conj; try reflexivity.
    left. repeat apply conj; reflexivity.
Qed.

Lemma load_shape h mc mc' effects :
  ModuleController.load h mc = Ok (mc', effects) ->
  ModuleController._subscriptions mc' = ModuleController._subscriptions mc
  /\ (effects = [ModuleController.Require (ModuleController._path mc)]
      \/ effects = []
      \/ effects = [ModuleController.SetupPropagationTarget;
                    ModuleController.Publish "load"]).
Proof.
  unfold ModuleController.load, ModuleController._onLoad, ModuleController.isAvailable.
  destruct (ModuleController._Module mc) as [Module|] eqn:HM.
  - destruct (ConditionsManager.getSuitability (ModuleController._conditionsManager mc)).
    + cbn [negb]. intros H.
      destruct (match ModuleController.module_options _ with VStr s => _ | _ => _ end)
        as [elementOptions|]; cbn [bind] in H; [|discriminate H].
      destruct (if truthy _ then _ else _) as [options|]; cbn [bind] in H;
        [|discriminate H].
      cbn [ModuleController._Module ModuleController.set_available] in H.
      rewrite HM in H.
      destruct (Module options) as [inst|]; cbn [bind] in H; [|discriminate H].
      injection H as <- <-. split; [reflexivity|]. right. right. reflexivity.
    + cbn [negb]. intros H. injection H as <- <-. split; [reflexivity|].
      right. left. reflexivity.
  - intros H. injection H as <- <-. split; [reflexivity|]. left. reflexivity.
Qed.

Lemma perform_hook_then_publish h fuel i hook type w :
  Forall (fun e => e = ModuleController.InstanceUnload) hook ->
  Node.perform h (S fuel) i (hook ++ [ModuleController.Publish type])%list w
  = let+ w' := Node.publish h fuel i type w in lift (Ok w').
Proof.
  induction 1 as [|e hook -> _ IH].
  - cbn [app]. rewrite perform_cons.
    destruct (Node.publish h fuel i type w) as [[w'|]|]; reflexivity.
  - cbn [app]. rewrite perform_cons. exact IH.
Qed.

Lemma subscribed_elem {H : Type} (subs : list (string * H)) (type : string) (fn : H) :
  fn ∈ Observer.subscribed subs type <-> (type, fn) ∈ subs.
Proof.
  unfold Observer.subscribed, Observer.subscriptions. rewrite list_elem_of_fmap. split.
  - intros ([ty f] & -> & Hin). apply list_elem_of_filter in Hin as [Hty Hin].
    cbn [fst snd] in *. apply String.eqb_eq in Hty. subst ty. exact Hin.
  - intros Hin. exists (type, fn). split; [reflexivity|].
    apply list_elem_of_filter. split; [apply String.eqb_refl|exact Hin].
Qed.

Lemma subscribed_unsubscribe_only {H : Type} (same : H -> H -> bool)
    (subs : list (string * H)) (type : string) (fn : H) :
  same fn fn = true ->
  Observer.subscribed subs type = [fn] ->
  Observer.subscribed (Observer.unsubscribe same subs type fn) type = [].
Proof.
  intros Hsame.
  assert (Hex : forall l : list (string * H),
             existsb (fun s => String.eqb (fst s) type && same (snd s) fn) l = false ->
             fn ∉ Observer.subscribed l type).
  { intros l Hno Hin. apply subscribed_elem, list_elem_of_In in Hin.
    apply not_true_iff_false in Hno. apply Hno, existsb_exists.
    exists (type, fn). split; [exact Hin|]. cbn [fst snd].
    rewrite String.eqb_refl, Hsame. reflexivity. }
  induction subs as [|[ty f] rest IH]; intros Hone; [discriminate Hone|].
  assert (Hcons : Observer.subscribed ((ty, f) :: rest) type
                  = ((if String.eqb ty type then [f] else [])
                       ++ Observer.subscribed rest type)%list).
  { unfold Observer.subscribed, Observer.subscriptions. rewrite filter_cons. cbn [fst].
    destruct (String.eqb ty type).
    - rewrite decide_True by reflexivity. reflexivity.
    - rewrite decide_False by discriminate. reflexivity. }
  rewrite Hcons in Hone. cbn [Observer.unsubscribe].
  destruct (existsb (fun s => String.eqb (fst s) type && same (snd s) fn) rest) eqn:Hrest.
  - destruct (String.eqb ty type) eqn:Hty.
    + cbn [app] in Hone. injection Hone as -> Hnil.
      exfalso. apply existsb_exists in Hrest as ([ty' f'] & Hin & Hm).
      cbn [fst snd] in Hm. apply andb_true_iff in Hm as [Hm _].
      apply String.eqb_eq in Hm. subst ty'.
      apply list_elem_of_In, subscribed_elem in Hin. rewrite Hnil in Hin. inversion Hin.
    + cbn [app] in Hone.
      assert (Hc : Observer.subscribed ((ty, f) :: Observer.unsubscribe same rest type fn) type
                   = Observer.subscribed (Observer.unsubscribe same rest type fn) type).
      { unfold Observer.subscribed, Observer.subscriptions. rewrite filter_cons. cbn [fst].
        rewrite Hty. rewrite decide_False by discriminate. reflexivity. }
      rewrite Hc. apply IH, Hone.
  - destruct (String.eqb ty type) eqn:Hty.
    + cbn [app] in Hone. injection Hone as -> Hnil. rewrite Hsame. cbn [andb]. exact Hnil.
    + cbn [app] in Hone. exfalso. apply (Hex rest Hrest). rewrite Hone. left.
Qed.

Lemma cleanActive_quiet h fuel w a mca mca' unloaded effects :
  Node._activeModuleController w = Some a ->
  Node._moduleControllers w !! a = Some mca ->
  Observer.subscribed
    (Observer.unsubscribe ModuleController.same_handler
       (ModuleController._subscriptions mca) "unload"
       ModuleController.ActiveModuleUnloadBind) "unload" = [] ->
  ModuleController.unload
    (ModuleController.set_subscriptions
       (Observer.unsubscribe ModuleController.same_handler
          (ModuleController._subscriptions mca) "unload"
          ModuleController.ActiveModuleUnloadBind) mca)
  = Ok (unloaded, mca', effects) ->
  exists w',
    Node._cleanActiveModuleController h (S (S (S (S fuel)))) w = Some (Ok w')
    /\ Node._activeModuleController w' = None
    /\ Node._moduleControllers w' = <[a:=mca']> (Node._moduleControllers w)
    /\ Node.requiring w' = Node.requiring w.
Proof.
  intros Hact Hla Hquiet Hun.
  pose proof (lookup_lt_Some _ _ _ Hla) as Hlen.
  destruct (unload_shape _ _ _ _ Hun) as (Hsubs & _ & _ & Hshape).
  cbn [ModuleController.set_subscriptions ModuleController._subscriptions] in Hsubs.
  rewrite cleanActive_eq, Hact. unfold Node.controller at 1. rewrite Hla.
  cbn [lift and_then]. rewrite unload_eq.
  unfold Node.controller, Node.update at 1.
  cbn [Node._moduleControllers Node.set_controllers].
  rewrite list_lookup_insert_eq by exact Hlen. cbn [lift and_then]. rewrite Hun.
  cbn [lift and_then].
  assert (Hperf : Node.perform h (S (S fuel)) a effects
                    (Node.update a mca'
                       (Node.update a
                          (ModuleController.set_subscriptions
                             (Observer.unsubscribe ModuleController.same_handler
                                (ModuleController._subscriptions mca) "unload"
                                ModuleController.ActiveModuleUnloadBind) mca) w))
                  = Some (Ok (Node.update a mca'
                       (Node.update a
                          (ModuleController.set_subscriptions
                             (Observer.unsubscribe ModuleController.same_handler
                                (ModuleController._subscriptions mca) "unload"
                                ModuleController.ActiveModuleUnloadBind) mca) w)))).
  { destruct Hshape as [(_ & -> & _)|(_ & _ & hook & -> & Hhook)].
    - apply perform_nil.
    - rewrite perform_cons, (perform_hook_then_publish h (S fuel) a hook "unload" _ Hhook).
      rewrite (publish_nobody h fuel a "unload" _ mca'); [reflexivity| |].
      + unfold Node.update. cbn [Node._moduleControllers Node.set_controllers].
        apply list_lookup_insert_eq. rewrite length_insert. exact Hlen.
      + rewrite Hsubs. exact Hquiet. }
  rewrite Hperf. cbn [lift and_then].
  eexists. repeat apply conj; try reflexivity.
  unfold Node.update. cbn [Node._moduleControllers Node.set_controllers Node.set_active].
  apply list_insert_insert_eq.
Qed.

Lemma load_quiet h fuel w m mc mc' effects :
  Node._moduleControllers w !! m = Some mc ->
  Observer.subscribed (ModuleController._subscriptions mc) "load" = [] ->
  ModuleController.load h mc = Ok (mc', effects) ->
  exists w',
    Node.load h (S (S (S fuel))) m w = Some (Ok w')
    /\ Node._activeModuleController w' = Node._activeModuleController w
    /\ Node._moduleControllers w' = <[m:=mc']> (Node._moduleControllers w).
Proof.
  intros Hl Hquiet Hload.
  pose proof (lookup_lt_Some _ _ _ Hl) as Hlen.
  destruct (load_shape _ _ _ _ Hload) as (Hsubs & Hshape).
  rewrite load_eq. unfold Node.controller. rewrite Hl. cbn [lift and_then].
  rewrite Hload. cbn [lift and_then].
  destruct Hshape as [->|[->| ->]].
  - rewrite perform_cons, perform_nil. eexists. repeat apply conj; reflexivity.
  - rewrite perform_nil. eexists. repeat apply conj; reflexivity.
  - rewrite !perform_cons.
    rewrite (publish_nobody h fuel m "load" _ mc'); [| |rewrite Hsubs; exact Hquiet].
    + cbn [lift and_then]. rewrite perform_nil. eexists. repeat apply conj; reflexivity.
    + unfold Node.update. cbn [Node._moduleControllers Node.set_controllers].
      apply list_lookup_insert_eq. exact Hlen.
Qed.

(** X14.  [_setActiveModuleController] for a controller other than the active one,
    when the node's is the only [unload] subscription on the active controller
    and nothing in the calls throws: the controller that was active ends
    without module instance and without [unload] subscription, the new one is
    the active controller and carries the node's [unload] subscription, and
    the other controllers are as before. *)
Theorem setActive_replaces_previous (h : ModuleController.host) (fuel : nat)
    (w : Node.t) (a m : nat) (mca mcm mca' mcm' : ModuleController.t)
    (unloaded : bool) (effects effects' : list ModuleController.effect) :
  Node._activeModuleController w = Some a ->
  a <> m ->
  Node._moduleControllers w !! a = Some mca ->
  Node._moduleControllers w !! m = Some mcm ->
  Observer.subscribed
    (Observer.unsubscribe ModuleController.same_handler
       (ModuleController._subscriptions mca) "unload"
       ModuleController.ActiveModuleUnloadBind) "unload" = [] ->
  Observer.subscribed (ModuleController._subscriptions mcm) "load" = [] ->
  ModuleController.unload
    (ModuleController.set_subscriptions
       (Observer.unsubscribe ModuleController.same_handler
          (ModuleController._subscriptions mca) "unload"
          ModuleController.ActiveModuleUnloadBind) mca)
  = Ok (unloaded, mca', effects) ->
  ModuleController.load h
    (ModuleController.set_subscriptions
       (Observer.subscribe (ModuleController._subscriptions mcm) "unload"
          ModuleController.ActiveModuleUnloadBind) mcm)
  = Ok (mcm', effects') ->
  exists w',
    Node._setActiveModuleController h (S (S (S (S (S fuel))))) m w = Some (Ok w')
    /\ Node._activeModuleController w' = Some m
    /\ Node._moduleControllers w' !! a = Some mca'
    /\ ModuleController.isActive mca' = false
    /\ Observer.subscribed (ModuleController._subscriptions mca') "unload" = []
    /\ Node._moduleControllers w' !! m = Some mcm'
    /\ Observer.subscribed (ModuleController._subscriptions mcm') "unload"
       = (Observer.subscribed (ModuleController._subscriptions mcm) "unload"
            ++ [ModuleController.ActiveModuleUnloadBind])%list
    /\ (forall i, i <> a -> i <> m ->
          Node._moduleControllers w' !! i = Node._moduleControllers w !! i).
Proof.
  intros Hact Hne Hla Hlm Hquiet Hnoload Hun Hload.
  pose proof (lookup_lt_Some _ _ _ Hla) as Hlena.
  pose proof (lookup_lt_Some _ _ _ Hlm) as Hlenm.
  destruct (unload_shape _ _ _ _ Hun) as (Hsubsa & _ & Hinactive & _).
  cbn [ModuleController.set_subscriptions ModuleController._subscriptions] in Hsubsa.
  destruct (load_shape _ _ _ _ Hload) as (Hsubsm & _).
  cbn [ModuleController.set_subscriptions ModuleController._subscriptions] in Hsubsm.
  destruct (cleanActive_quiet h fuel w a mca mca' unloaded effects Hact Hla Hquiet Hun)
    as (w1 & Hclean & Hact1 & Hmcs1 & _).
  rewrite setActive_eq, bool_decide_false by (rewrite Hact; congruence).
  rewrite Hclean. cbn [lift and_then].
  assert (Hlm1 : Node._moduleControllers (Node.set_active (Some m) w1) !! m = Some mcm).
  { cbn [Node.set_active Node._moduleControllers]. rewrite Hmcs1.
    rewrite list_lookup_insert_ne by exact Hne. exact Hlm. }
  unfold Node.controller at 1. rewrite Hlm1. cbn [lift and_then].
  edestruct (load_quiet h (S fuel)
               (Node.update m
                  (ModuleController.set_subscriptions
                     (Observer.subscribe (ModuleController._subscriptions mcm) "unload"
                        ModuleController.ActiveModuleUnloadBind) mcm)
                  (Node.set_active (Some m) w1)) m
               (ModuleController.set_subscriptions
                  (Observer.subscribe (ModuleController._subscriptions mcm) "unload"
                     ModuleController.ActiveModuleUnloadBind) mcm)
               mcm' effects')
    as (w' & Hrun & Hact' & Hmcs').
  { unfold Node.update. cbn [Node._moduleControllers Node.set_controllers Node.set_active].
    apply list_lookup_insert_eq. rewrite Hmcs1, length_insert. exact Hlenm. }
  { cbn [ModuleController.set_subscriptions ModuleController._subscriptions].
    rewrite (subscribe_appends (ModuleController._subscriptions mcm) "unload" "load"
               ModuleController.ActiveModuleUnloadBind).
    cbn. rewrite app_nil_r. exact Hnoload. }
  { exact Hload. }
  exists w'. rewrite Hrun. split; [reflexivity|].
  unfold Node.update in Hmcs', Hact'.
  cbn [Node._moduleControllers Node.set_controllers Node.set_active
       Node._activeModuleController] in Hmcs', Hact'.
  rewrite Hmcs1 in Hmcs'. rewrite Hmcs', Hact'. repeat apply conj.
  - reflexivity.
  - rewrite !list_lookup_insert_ne by congruence.
    apply list_lookup_insert_eq. exact Hlena.
  - exact Hinactive.
  - rewrite Hsubsa. exact Hquiet.
  - apply list_lookup_insert_eq. rewrite !length_insert. exact Hlenm.
  - rewrite Hsubsm.
    rewrite (subscribe_appends (ModuleController._subscriptions mcm) "unload" "unload"
               ModuleController.ActiveModuleUnloadBind).
    reflexivity.
  - intros i Hia Him. rewrite !list_lookup_insert_ne by congruence. reflexivity.
Qed.

Lemma setActive_replaces_previous_witness :
  exists w' mca',
    Node._setActiveModuleController Scenario.host 5 1 Scenario.first_loaded = Some (Ok w')
    /\ Node._activeModuleController w' = Some 1%nat
    /\ Node._moduleControllers w' !! 0%nat = Some mca'
    /\ ModuleController.isActive mca' = false.
Proof.
  edestruct (setActive_replaces_previous Scenario.host 0 Scenario.first_loaded 0 1)
    as (w' & Hrun & Hact & Hla & Hinactive & _).
  - reflexivity.
  - discriminate.
  - reflexivity.
  - reflexivity.
  - reflexivity.
  - reflexivity.
  - vm_compute. reflexivity.
  - vm_compute. reflexivity.
  - exists w'. eexists. repeat apply conj; eassumption.
Defined.

Lemma first_available_none : forall mcs i,
  (forall mc, mc ∈ mcs -> ModuleController.suitable mc = false) ->
  Node.first_available mcs i = (None, map (ModuleController.set_available false) mcs).
Proof.
  induction mcs as [|mc rest IH]; intros i Hall; [reflexivity|].
  cbn [Node.first_available ModuleController.isAvailable map].
  pose proof (Hall mc ltac:(left)) as Hmc. unfold ModuleController.suitable in Hmc.
  rewrite Hmc. rewrite (IH (S i)) by (intros mc' Hin; apply Hall; right; exact Hin).
  reflexivity.
Qed.

(** X15.  The active controller stops being suitable while no controller of the
    node is: its conditions change unloads it, the node takes the [unload]
    notice, finds nobody to elect and is left without active controller.  No
    controller holds an instance that did not hold one before, the one that
    was active holds none, and [execute] answers 404. *)
Theorem unsuitable_active_leaves_none (h : ModuleController.host) (fuel : nat)
    (w : Node.t) (a : nat) (mca mca' : ModuleController.t)
    (effects : list ModuleController.effect) :
  Node._activeModuleController w = Some a ->
  Node._moduleControllers w !! a = Some mca ->
  ModuleController.isActive mca = true ->
  (forall mc, mc ∈ Node._moduleControllers w -> ModuleController.suitable mc = false) ->
  Observer.subscribed (ModuleController._subscriptions mca) "unload"
  = [ModuleController.ActiveModuleUnloadBind] ->
  ModuleController.unload mca = Ok (true, mca', effects) ->
  exists w',
    Node.controller_onConditionsChange h (8 + fuel) a w = Some (Ok w')
    /\ Node._activeModuleController w' = None
    /\ (exists mc, Node._moduleControllers w' !! a = Some mc
                   /\ ModuleController.isActive mc = false)
    /\ (forall i mc', i <> a -> Node._moduleControllers w' !! i = Some mc' ->
          exists mc, Node._moduleControllers w !! i = Some mc
                     /\ ModuleController.isActive mc' = ModuleController.isActive mc)
    /\ (forall method params,
          Node.execute w' method params
          = Ok {| ModuleController.status := 404;
                  ModuleController.response_data := VNull |}).
Proof.
  intros Hact Hla Hactive Hnone Hbind Hun.
  pose proof (lookup_lt_Some _ _ _ Hla) as Hlen.
  destruct (unload_shape _ _ _ _ Hun) as (Hsubs & Hcm & Hinactive & Hshape).
  destruct Hshape as [(Hf & _)|(_ & _ & hook & -> & Hhook)]; [discriminate Hf|].
  assert (Hsuit : ModuleController.suitable mca = false)
    by (apply Hnone, list_elem_of_lookup; exists a; exact Hla).
  (* the second unload, inside the node's handler *)
  set (mca0 := ModuleController.set_subscriptions
                 (Observer.unsubscribe ModuleController.same_handler
                    (ModuleController._subscriptions mca') "unload"
                    ModuleController.ActiveModuleUnloadBind) mca').
  assert (Hun2 : ModuleController.unload mca0
                 = Ok (false, ModuleController.set_available false mca0, [])).
  { unfold ModuleController.unload.
    unfold ModuleController.isActive in Hinactive.
    cbn [ModuleController.set_available ModuleController._moduleInstance].
    subst mca0. cbn [ModuleController.set_subscriptions ModuleController._moduleInstance].
    destruct (ModuleController._moduleInstance mca'); [discriminate Hinactive|reflexivity]. }
  set (w1 := Node.update a mca' w).
  assert (Hla1 : Node._moduleControllers w1 !! a = Some mca').
  { subst w1. unfold Node.update. cbn [Node._moduleControllers Node.set_controllers].
    apply list_lookup_insert_eq, Hlen. }
  assert (Hquiet : Observer.subscribed
                     (Observer.unsubscribe ModuleController.same_handler
                        (ModuleController._subscriptions mca') "unload"
                        ModuleController.ActiveModuleUnloadBind) "unload" = []).
  { rewrite Hsubs. apply subscribed_unsubscribe_only; [reflexivity|exact Hbind]. }
  destruct (cleanActive_quiet h fuel w1 a mca' _ false [] Hact Hla1 Hquiet Hun2)
    as (w2 & Hclean & Hact2 & Hmcs2 & _).
  (* nobody to elect *)
  assert (Hnone2 : forall mc, mc ∈ Node._moduleControllers w2 ->
                              ModuleController.suitable mc = false).
  { intros mc Hin. rewrite Hmcs2 in Hin. subst w1. unfold Node.update in Hin.
    cbn [Node._moduleControllers Node.set_controllers] in Hin.
    rewrite list_insert_insert_eq in Hin.
    apply list_elem_of_lookup in Hin as (i & Hi).
    destruct (decide (i = a)) as [->|Hia].
    - rewrite list_lookup_insert_eq in Hi by exact Hlen. injection Hi as <-.
      unfold ModuleController.suitable. cbn [ModuleController.set_available
        ModuleController._conditionsManager]. subst mca0.
      cbn [ModuleController.set_subscriptions ModuleController._conditionsManager].
      rewrite Hcm. exact Hsuit.
    - rewrite list_lookup_insert_ne in Hi by congruence.
      apply Hnone, list_elem_of_lookup. exists i. exact Hi. }
  change (8 + fuel)%nat with (S (S (S (S (S (S (S (S fuel)))))))).
  unfold Node.controller_onConditionsChange.
  unfold Node.controller at 1. rewrite Hla. cbn [lift and_then].
  unfold ModuleController.suitable in Hsuit. rewrite Hactive, Hsuit. cbn [andb negb].
  rewrite unload_eq. unfold Node.controller at 1. rewrite Hla. cbn [lift and_then].
  rewrite Hun. cbn [lift and_then]. fold w1.
  rewrite perform_cons, (perform_hook_then_publish h _ a hook "unload" _ Hhook).
  rewrite (publish_unload_bind h _ a w1 mca' Hla1) by (rewrite Hsubs; exact Hbind).
  rewrite onActiveModuleUnload_eq, Hclean. cbn [lift and_then].
  unfold Node._getSuitableActiveModuleController.
  rewrite (first_available_none _ 0 Hnone2). cbn [lift and_then].
  set (w3 := Node.set_controllers _ w2).
  assert (Hmcs3 : Node._moduleControllers w3
                  = map (ModuleController.set_available false)
                        (<[a:=ModuleController.set_available false mca0]>
                           (Node._moduleControllers w))).
  { subst w3. cbn [Node._moduleControllers Node.set_controllers]. rewrite Hmcs2.
    subst w1. unfold Node.update. cbn [Node._moduleControllers Node.set_controllers].
    rewrite list_insert_insert_eq. reflexivity. }
  assert (Hla3 : Node._moduleControllers w3 !! a
                 = Some (ModuleController.set_available false
                           (ModuleController.set_available false mca0))).
  { rewrite Hmcs3, list_lookup_fmap, list_lookup_insert_eq by exact Hlen. reflexivity. }
  unfold Node.controller. rewrite Hla3. cbn [lift and_then].
  assert (Hoff : ModuleController.isActive
                   (ModuleController.set_available false
                      (ModuleController.set_available false mca0)) = false).
  { unfold ModuleController.isActive in *. subst mca0. cbn. exact Hinactive. }
  rewrite Hoff. cbn [negb andb].
  exists w3. repeat apply conj.
  - reflexivity.
  - subst w3. cbn [Node._activeModuleController Node.set_controllers]. exact Hact2.
  - eexists. split; [exact Hla3|exact Hoff].
  - intros i mc' Hia Hi. rewrite Hmcs3, list_lookup_fmap in Hi.
    rewrite list_lookup_insert_ne in Hi by congruence.
    destruct (Node._moduleControllers w !! i) as [mc|]; [|discriminate Hi].
    cbn in Hi. injection Hi as <-. exists mc. split; reflexivity.
  - intros method params. unfold Node.execute. subst w3.
    cbn [Node._activeModuleController Node.set_controllers]. rewrite Hact2. reflexivity.
Qed.

Lemma unsuitable_active_leaves_none_witness :
  exists w',
    Node.controller_onConditionsChange Scenario.host 8 0 Scenario.alone_unsuitable
    = Some (Ok w')
    /\ Node._activeModuleController w' = None
    /\ Node.execute w' "greet" []
       = Ok {| ModuleController.status := 404; ModuleController.response_data := VNull |}.
Proof.
  edestruct (unsuitable_active_leaves_none Scenario.host 0 Scenario.alone_unsuitable 0)
    as (w' & Hrun & Hact & _ & _ & Hexec).
  - reflexivity.
  - reflexivity.
  - reflexivity.
  - intros mc Hin. apply list_elem_of_singleton in Hin. subst mc. reflexivity.
  - reflexivity.
  - vm_compute. reflexivity.
  - exists w'. repeat apply conj; [exact Hrun | exact Hact | apply Hexec].
Defined.

(** ** ExpressionFormatter: grouping one level *)

Lemma splice_front (l : list Expression.item) (k : nat) (x : Expression.item) :
  ExpressionFormatter.splice l 0 k x = x :: drop k l.
Proof.
  unfold ExpressionFormatter.splice. cbn [Z.ltb Z.compare].
  replace (Z.min 0 (Z.of_nat (length l))) with 0%Z by lia. reflexivity.
Qed.

Lemma at_index_nat (l : list Expression.item) (j : nat) :
  ExpressionFormatter.at_index l (Z.of_nat j) = default Expression.TUndefined (l !! j).
Proof.
  unfold ExpressionFormatter.at_index.
  destruct (Z.ltb_spec (Z.of_nat j) 0); [lia|]. rewrite Nat2Z.id. reflexivity.
Qed.

Lemma group_skip fuel j tl (a : list Expression.item) :
  (j < tl)%nat ->
  ExpressionFormatter.is_word (default Expression.TUndefined (a !! j)) = false ->
  ExpressionFormatter.group (S fuel) j tl a = ExpressionFormatter.group fuel (S j) tl a.
Proof.
  intros Hlt Hw. cbn [ExpressionFormatter.group].
  destruct (Nat.leb_spec tl j); [lia|]. rewrite at_index_nat.
  destruct (default Expression.TUndefined (a !! j)); try discriminate Hw; reflexivity.
Qed.

Lemma group_binary fuel j tl (a : list Expression.item) o y :
  (S j < tl)%nat ->
  a !! S j = Some (Expression.TStr o) ->
  o <> "not" ->
  a !! S (S j) = Some y ->
  ExpressionFormatter.is_word y = false ->
  ExpressionFormatter.group (S fuel) (S j) tl a
  = ExpressionFormatter.group fuel 0
      (length (ExpressionFormatter.splice a (Z.of_nat j) 3
                 (Expression.BinaryExpression
                    (default Expression.TUndefined (a !! j)) o y)))
      (ExpressionFormatter.splice a (Z.of_nat j) 3
         (Expression.BinaryExpression (default Expression.TUndefined (a !! j)) o y)).
Proof.
  intros Hlt Ho Hnot Hy Hw. cbn [ExpressionFormatter.group].
  destruct (Nat.leb_spec tl (S j)); [lia|]. rewrite at_index_nat, Ho. cbn [from_option id].
  apply String.eqb_neq in Hnot. rewrite Hnot.
  replace (Z.of_nat (S j) + 1)%Z with (Z.of_nat (S (S j))) by lia.
  replace (Z.of_nat (S j) - 1)%Z with (Z.of_nat j) by lia.
  rewrite !at_index_nat, Hy. cbn [from_option id].
  destruct y; try discriminate Hw; reflexivity.
Qed.

Lemma group_done fuel j tl (a : list Expression.item) :
  (tl <= j)%nat -> ExpressionFormatter.group (S fuel) j tl a = Some a.
Proof.
  intros Hle. cbn [ExpressionFormatter.group].
  destruct (Nat.leb_spec tl j); [reflexivity|lia].
Qed.

(** X16.  Operands joined by binary operators are grouped from the left, whatever
    the operators are: [x o1 y1 o2 y2 ...] becomes the single expression
    [((x o1 y1) o2 y2) ...].  [and] does not bind tighter than [or]. *)
Theorem group_folds_left :
  forall (ops : list (string * Expression.item)) (x : Expression.item) (fuel : nat),
    ExpressionFormatter.is_word x = false ->
    Forall (fun oy => fst oy <> "not" /\ ExpressionFormatter.is_word (snd oy) = false) ops ->
    ExpressionFormatter.group (2 * length ops + 2 + fuel) 0
      (length (ExpressionFormatter.chain x ops)) (ExpressionFormatter.chain x ops)
    = Some [fold_left (fun acc oy => Expression.BinaryExpression acc (fst oy) (snd oy))
                      ops x].
Proof.
  induction ops as [|[o y] ops IH]; intros x fuel Hx Hops.
  - cbn [length Nat.mul Nat.add ExpressionFormatter.chain flat_map fold_left].
    rewrite group_skip; [|cbn; lia|exact Hx].
    apply group_done. cbn. lia.
  - apply Forall_cons in Hops as [[Ho Hy] Hops]. cbn [fst snd] in Ho, Hy.
    replace (2 * length ((o, y) :: ops) + 2 + fuel)%nat
      with (S (S (2 * length ops + 2 + fuel))) by (cbn [length]; lia).
    change (ExpressionFormatter.chain x ((o, y) :: ops))
      with (x :: Expression.TStr o :: ExpressionFormatter.chain y ops).
    cbn [fold_left fst snd].
    rewrite <- (IH (Expression.BinaryExpression x o y) fuel eq_refl Hops).
    rewrite group_skip; [|cbn; lia|exact Hx].
    rewrite (group_binary _ 0 _ _ o y); [|cbn; lia|reflexivity|exact Ho|reflexivity|exact Hy].
    cbn [lookup list_lookup from_option id Z.of_nat]. rewrite splice_front. reflexivity.
Qed.

Lemma group_folds_left_witness :
  ExpressionFormatter.group 6 0 5
    [Expression.TUndefined; Expression.TStr "or"; Expression.TUndefined;
     Expression.TStr "and"; Expression.TUndefined]
  = Some [Expression.TBinary
            (Expression.TBinary Expression.TUndefined "or" Expression.TUndefined)
            "and" Expression.TUndefined].
Proof.
  apply (group_folds_left [("or", Expression.TUndefined); ("and", Expression.TUndefined)]
           Expression.TUndefined 0).
  - reflexivity.
  - repeat constructor; discriminate.
Defined.

(** ** ConditionsManager: from resolving to ready *)

Lemma leaf_at_offset : forall e k k',
  Expression.leaf_at k e = inl k' ->
  (Expression.leaf_count e <= k)%nat /\ k' = (k - Expression.leaf_count e)%nat.
Proof.
  fix IH 1. intros [s|l| |x c n|a o b] k k' H;
    cbn [Expression.leaf_at Expression.leaf_count] in *;
    try (injection H as <-; split; lia).
  - destruct (Expression.config_truthy c).
    + destruct k; [discriminate H|]. injection H as <-. split; lia.
    + destruct x as [|tester| |e1]; try (injection H as <-; split; lia).
      apply (IH e1 k k' H).
  - destruct (Expression.leaf_at k a) as [ka|xa] eqn:Ha; [|discriminate H].
    destruct (IH a k ka Ha) as [Hle ->].
    destruct (IH b _ k' H) as [Hle' ->]. split; lia.
Qed.

Lemma leaf_at_inr_bound : forall e k x,
  Expression.leaf_at k e = inr x -> (k < Expression.leaf_count e)%nat.
Proof.
  fix IH 1. intros [s|l| |x c n|a o b] k y H;
    cbn [Expression.leaf_at Expression.leaf_count] in *; try discriminate H.
  - destruct (Expression.config_truthy c).
    + destruct k; [lia|discriminate H].
    + destruct x as [|tester| |e1]; try discriminate H. apply (IH e1 k y H).
  - destruct (Expression.leaf_at k a) as [ka|xa] eqn:Ha.
    + destruct (leaf_at_offset a k ka Ha) as [Hle ->].
      pose proof (IH b _ y H). lia.
    + pose proof (IH a k xa Ha). lia.
Qed.

Lemma at_leaf_spec (f : Expression.slot -> Expression.slot) : forall e k,
  match Expression.leaf_at k e with
  | inl k' => Expression.at_leaf k f e = inl k'
  | inr x =>
      exists e',
        Expression.at_leaf k f e = inr e'
        /\ Expression.leaf_at k e' = inr (f x)
        /\ (forall j, j <> k -> Expression.leaf_at j e' = Expression.leaf_at j e)
        /\ Expression.leaf_count e' = Expression.leaf_count e
        /\ Expression.is_expression e' = Expression.is_expression e
  end.
Proof.
  fix IH 1. intros [s|l| |x c n|a o b] k;
    cbn [Expression.leaf_at Expression.at_leaf]; try reflexivity.
  - destruct (Expression.config_truthy c) eqn:Hc.
    + destruct k as [|k]; [|reflexivity].
      eexists. split; [reflexivity|].
      cbn [Expression.leaf_at Expression.leaf_count Expression.is_expression].
      rewrite Hc. repeat apply conj; try reflexivity.
      intros [|j] Hj; [contradiction|reflexivity].
    + destruct x as [|tester| |e1]; try reflexivity.
      specialize (IH e1 k). destruct (Expression.leaf_at k e1) as [k'|x1].
      * rewrite IH. reflexivity.
      * destruct IH as (e1' & -> & Hk & Hother & Hcount & Hkind).
        eexists. split; [reflexivity|].
        cbn [Expression.leaf_at Expression.leaf_count Expression.is_expression].
        rewrite Hc. repeat apply conj; [exact Hk|exact Hother|exact Hcount|reflexivity].
  - pose proof (IH a k) as IHa. destruct (Expression.leaf_at k a) as [ka|xa] eqn:Ha.
    + rewrite IHa. pose proof (IH b ka) as IHb.
      destruct (leaf_at_offset a k ka Ha) as [Hle ->].
      destruct (Expression.leaf_at (k - Expression.leaf_count a) b) as [kb|xb] eqn:Hb.
      * rewrite IHb. reflexivity.
      * destruct IHb as (b' & -> & Hk & Hother & Hcount & Hkind).
        eexists. split; [reflexivity|].
        cbn [Expression.leaf_at Expression.leaf_count Expression.is_expression].
        rewrite Ha. repeat apply conj; [exact Hk| |congruence|reflexivity].
        intros j Hj. destruct (Expression.leaf_at j a) as [ja|xja] eqn:Hja;
          [|reflexivity].
        destruct (leaf_at_offset a j ja Hja) as [Hlej ->].
        apply Hother. lia.
    + destruct IHa as (a' & -> & Hk & Hother & Hcount & Hkind).
      eexists. split; [reflexivity|].
      cbn [Expression.leaf_at Expression.leaf_count Expression.is_expression].
      rewrite Hk. repeat apply conj; [reflexivity| |congruence|reflexivity].
      intros j Hj. rewrite (Hother j Hj).
      destruct (Expression.leaf_at j a) as [ja|xja] eqn:Hja; [|reflexivity].
      reflexivity.
Qed.

Lemma assign_awaiting (tester : Tester.t) : forall e k e',
  Expression.shaped e = true ->
  Expression.leaf_at k e = inr Expression.SNull ->
  Expression.at_leaf k (fun _ => Expression.STester tester) e = inr e' ->
  Expression.shaped e' = true
  /\ Expression.awaiting e = S (Expression.awaiting e')
  /\ Expression.is_expression e' = Expression.is_expression e.
Proof.
  fix IH 1. intros [s|l| |x c n|a o b] k e' Hs Hl Ha;
    cbn [Expression.leaf_at Expression.at_leaf] in *; try discriminate Hl.
  - destruct (Expression.config_truthy c) eqn:Hc.
    + destruct k; [|discriminate Hl]. injection Hl as ->. injection Ha as <-.
      cbn [Expression.shaped Expression.awaiting Expression.is_expression].
      repeat apply conj; [exact Hc|reflexivity|reflexivity].
    + destruct x as [|t0| |e1]; try discriminate Hl.
      cbn [Expression.shaped] in Hs. rewrite Hc in Hs. cbn [negb andb] in Hs.
      apply andb_true_iff in Hs as [Hk Hs1].
      destruct (Expression.at_leaf k _ e1) as [k'|e1'] eqn:Ha1; [discriminate Ha|].
      injection Ha as <-.
      destruct (IH e1 k e1' Hs1 Hl Ha1) as (Hs' & Haw & Hkind).
      cbn [Expression.shaped Expression.awaiting Expression.is_expression].
      rewrite Hc, Hkind, Hk, Hs'. repeat apply conj; [reflexivity|exact Haw|reflexivity].
  - cbn [Expression.shaped] in Hs.
    apply andb_true_iff in Hs as [Hsa Hsb].
    apply andb_true_iff in Hsa as [Hka Hsa]. apply andb_true_iff in Hsb as [Hkb Hsb].
    pose proof (at_leaf_spec (fun _ => Expression.STester tester) a k) as Hspec.
    destruct (Expression.leaf_at k a) as [ka|xa] eqn:Hla.
    + rewrite Hspec in Ha.
      destruct (Expression.at_leaf ka _ b) as [kb|b'] eqn:Hab; [discriminate Ha|].
      injection Ha as <-.
      destruct (IH b ka b' Hsb Hl Hab) as (Hs' & Haw & Hkind).
      cbn [Expression.shaped Expression.awaiting Expression.is_expression].
      rewrite Hka, Hsa, Hkind, Hkb, Hs'. repeat apply conj; [reflexivity|lia|reflexivity].
    + injection Hl as ->.
      destruct Hspec as (a'' & Ha'' & _). rewrite Ha'' in Ha. injection Ha as <-.
      destruct (IH a k a'' Hsa Hla Ha'') as (Hs' & Haw & Hkind).
      cbn [Expression.shaped Expression.awaiting Expression.is_expression].
      rewrite Hkind, Hka, Hs', Hkb, Hsb. repeat apply conj; [reflexivity|lia|reflexivity].
Qed.

Lemma awaiting_zero_resolved : forall e,
  Expression.shaped e = true -> Expression.awaiting e = 0%nat ->
  Expression.resolved e = true.
Proof.
  fix IH 1. intros [s|l| |x c n|a o b] Hs Hz;
    cbn [Expression.shaped Expression.awaiting Expression.resolved] in *;
    try discriminate Hs.
  - destruct x as [|tester| |e1]; try discriminate Hz; try discriminate Hs; [reflexivity|].
    apply andb_true_iff in Hs as [Hs Hs1]. apply andb_true_iff in Hs as [_ Hk].
    rewrite Hk, (IH e1 Hs1 Hz). reflexivity.
  - apply andb_true_iff in Hs as [Hsa Hsb].
    apply andb_true_iff in Hsa as [Hka Hsa]. apply andb_true_iff in Hsb as [Hkb Hsb].
    rewrite Hka, Hkb, (IH a Hsa), (IH b Hsb) by lia. reflexivity.
Qed.

Lemma waiting_filter k k' (l : list (nat * Expression.config)) c :
  ConditionsManager.waiting k' (filter (fun kc => fst kc <> k) l) = Some c ->
  k' <> k /\ ConditionsManager.waiting k' l = Some c.
Proof.
  induction l as [|[k0 c0] l IH]; [discriminate|].
  rewrite filter_cons. cbn [fst ConditionsManager.waiting].
  destruct (decide (k0 <> k)) as [Hne|Heq].
  - cbn [ConditionsManager.waiting]. destruct (Nat.eqb_spec k' k0) as [->|Hk'].
    + intros H. split; [exact Hne|exact H].
    + exact IH.
  - intros H. destruct (IH H) as [Hk' Hw]. split; [exact Hk'|].
    destruct (Nat.eqb_spec k' k0) as [->|_]; [|exact Hw].
    exfalso. apply Heq. congruence.
Qed.

(** X17.  While a manager waits for tests, a test that arrives is bound to its leaf
    and counted; nothing is published and the verdict stays until the last
    one arrives, in whatever order they come.  The last one makes every leaf
    hold its tester; the manager then computes the verdict, publishes
    [change] if that differs from the stored one, and publishes [ready] with
    the verdict.  As long as a test is outstanding the count is positive. *)
Theorem last_test_makes_ready (env : Tester.assertions) (k : nat)
    (c : Expression.config) (cm : ConditionsManager.t) :
  ConditionsManager.resolving cm ->
  ConditionsManager.waiting k (ConditionsManager.loading cm) = Some c ->
  (0 < ConditionsManager._count cm)%Z
  /\ (ConditionsManager._count cm <> 1%Z ->
      exists cm',
        ConditionsManager.onTestFound env k cm = Ok (cm', [])
        /\ ConditionsManager.resolving cm'
        /\ ConditionsManager._count cm' = (ConditionsManager._count cm - 1)%Z
        /\ ConditionsManager._suitable cm' = ConditionsManager._suitable cm)
  /\ (ConditionsManager._count cm = 1%Z ->
      exists cm' e',
        ConditionsManager.onTestFound env k cm
        = Ok (cm',
              ((if xorb (ConditionsManager._suitable cm') (ConditionsManager._suitable cm)
                then [ConditionsManager.Change] else [])
                 ++ [ConditionsManager.Ready (ConditionsManager._suitable cm')])%list)
        /\ ConditionsManager._expression cm' = Some e'
        /\ Expression.resolved e' = true
        /\ ConditionsManager._count cm' = 0%Z).
Proof.
  intros (e & He & Hshape & Hcount & Hrefs) Hwait.
  pose proof (Hrefs k c Hwait) as Hleaf.
  set (tester := Tester.new (ConditionsManager.config_path c)
                            (ConditionsManager.config_value c)).
  pose proof (at_leaf_spec (fun _ => Expression.STester tester) e k) as Hspec.
  rewrite Hleaf in Hspec. destruct Hspec as (e1 & Hat & Hk & Hother & _).
  destruct (assign_awaiting tester e k e1 Hshape Hleaf Hat) as (Hshape1 & Haw & _).
  assert (Hassign : Expression.assignTester k (Expression.STester tester) e = e1).
  { unfold Expression.assignTester. rewrite Hat. reflexivity. }
  split; [lia|].
  unfold ConditionsManager.onTestFound. rewrite Hwait, He. cbn [option_map].
  fold tester. rewrite Hassign. cbn [ConditionsManager._count].
  split.
  - intros Hne. destruct (Z.eqb_spec (ConditionsManager._count cm - 1) 0) as [H0|_]; [lia|].
    eexists. repeat apply conj; try reflexivity.
    exists e1. cbn [ConditionsManager._expression ConditionsManager._count
                    ConditionsManager.loading]. repeat apply conj.
    + reflexivity.
    + exact Hshape1.
    + lia.
    + intros k' c' Hw'. destruct (waiting_filter k k' _ c' Hw') as [Hk' Hw].
      rewrite (Hother k' Hk'). apply (Hrefs k' c' Hw).
  - intros H1.
    destruct (Z.eqb_spec (ConditionsManager._count cm - 1) 0) as [H0|Hne]; [|lia].
    assert (Hz : Expression.awaiting e1 = 0%nat) by lia.
    pose proof (awaiting_zero_resolved e1 Hshape1 Hz) as Hres.
    destruct (succeeds_resolved env e1 Hres) as (v & e2 & Hrun & Hres2 & _).
    unfold ConditionsManager._onReady, ConditionsManager.test.
    cbn [ConditionsManager._expression ConditionsManager._suitable]. rewrite Hrun.
    cbn [bind].
    destruct v, (ConditionsManager._suitable cm) eqn:Hold; cbn [xorb bind];
      (match goal with
       | |- exists cm' e', Ok (?x, _) = _ /\ _ => exists x, e2
       end);
      cbn [ConditionsManager._suitable ConditionsManager._expression
           ConditionsManager._count xorb app];
      (split; [reflexivity|split; [reflexivity|split; [exact Hres2|exact H0]]]).
Qed.

Lemma fresh_manager_resolving : ConditionsManager.resolving Scenario.fresh_manager.
Proof.
  eexists. repeat apply conj; try reflexivity.
  intros [|[|k]] c H; cbn in H; try discriminate H; reflexivity.
Qed.

Lemma last_test_makes_ready_witness :
  exists cm',
    ConditionsManager.onTestFound Scenario.only_a 1 Scenario.fresh_manager = Ok (cm', [])
    /\ ConditionsManager._count cm' = 1%Z.
Proof.
  destruct (last_test_makes_ready Scenario.only_a 1 (Expression.CLeaf "b" "2")
              Scenario.fresh_manager fresh_manager_resolving eq_refl)
    as (_ & Hmore & _).
  destruct (Hmore ltac:(discriminate)) as (cm' & Hrun & _ & Hcount & _).
  exists cm'. split; [exact Hrun|exact Hcount].
Defined.

(** ** ModuleRegister: what a registration makes findable *)




(** ** TestFactory: one setup for all instances of a test *)

Lemma arrange_all_supported (T : TestFactory.Test) (tests : list nat) :
  TestFactory.has_arrange (TestFactory.of_config T) = false ->
  Js.truthy (TestFactory.supported T) = true ->
  TestFactory.has_setup (TestFactory.of_config T) = true ->
  exists T',
    TestFactory.arrange_all T tests = Ok T'
    /\ TestFactory.of_config T' = TestFactory.of_config T
    /\ TestFactory.supported T' = TestFactory.supported T
    /\ TestFactory._callbacks T' = (TestFactory._callbacks T ++ tests)%list
    /\ TestFactory._ready T'
       = (TestFactory._ready T || negb (Nat.eqb (length tests) 0))%bool
    /\ TestFactory.setups T'
       = if (TestFactory._ready T || Nat.eqb (length tests) 0)%bool
         then TestFactory.setups T else S (TestFactory.setups T).
Proof.
  revert T. induction tests as [|test rest IH]; intros T Harr Hsup Hset.
  - exists T. cbn. rewrite app_nil_r, !orb_false_r, orb_true_r.
    repeat apply conj; reflexivity.
  - cbn [TestFactory.arrange_all]. unfold TestFactory.arrange, TestFactory._setup.
    rewrite Harr, Hsup, Hset. cbn [negb].
    destruct (TestFactory._ready T) eqn:Hready; cbn [bind].
    + match goal with
      | |- exists T', TestFactory.arrange_all ?T1 rest = _ /\ _ =>
          destruct (IH T1 Harr Hsup Hset) as (T' & Hrun & Hc & Hs & Hcb & Hr & Hn)
      end.
      exists T'. rewrite Hrun, Hc, Hs, Hcb, Hr, Hn. cbn.
      rewrite <- app_assoc. repeat apply conj; reflexivity.
    + match goal with
      | |- exists T', TestFactory.arrange_all ?T1 rest = _ /\ _ =>
          destruct (IH T1 Harr Hsup Hset) as (T' & Hrun & Hc & Hs & Hcb & Hr & Hn)
      end.
      exists T'. rewrite Hrun, Hc, Hs, Hcb, Hr, Hn. cbn.
      rewrite <- app_assoc. repeat apply conj; reflexivity.
Qed.

Lemma arrange_all_idle (T : TestFactory.Test) (tests : list nat) :
  TestFactory.has_arrange (TestFactory.of_config T) = true
  \/ Js.truthy (TestFactory.supported T) = false ->
  TestFactory.arrange_all T tests = Ok T.
Proof.
  intros H. induction tests as [|test rest IH]; [reflexivity|].
  cbn [TestFactory.arrange_all]. unfold TestFactory.arrange, TestFactory._setup.
  destruct H as [H|H]; rewrite H; cbn [negb bind]; [exact IH|].
  destruct (TestFactory.has_arrange (TestFactory.of_config T)); exact IH.
Qed.

(** X19.  For a test module with [assert] and [setup] and no [arrange] of its own,
    however many instances arrange themselves, [setup] is called once (with
    the first instance) and a measurement that reports a change reaches every
    instance, in the order they arranged themselves.  If the module reports
    no support, or has its own [arrange], [setup] is never called and a
    measurement reaches nobody. *)
Theorem setup_runs_once_for_all_instances (c : TestFactory.config)
    (tests : list nat) (answer : Js.value) :
  TestFactory.has_assert c = true ->
  TestFactory.has_setup c = true ->
  exists T T',
    TestFactory._createTest c = Ok T
    /\ TestFactory.arrange_all T tests = Ok T'
    /\ (TestFactory.has_arrange c = false ->
        Js.truthy (TestFactory.supported T) = true ->
        TestFactory.setups T' = (if Nat.eqb (length tests) 0 then 0 else 1)%nat
        /\ TestFactory._measure T' answer
           = if (negb (TestFactory.has_measure c) || Js.truthy answer)%bool
             then tests else [])
    /\ (TestFactory.has_arrange c = true
        \/ Js.truthy (TestFactory.supported T) = false ->
        TestFactory.setups T' = 0%nat
        /\ TestFactory._measure T' answer = []).
Proof.
  intros Hassert Hsetup.
  unfold TestFactory._createTest. rewrite Hassert. cbn [negb].
  eexists. 
  match goal with
  | |- exists T', Ok ?T0 = Ok _ /\ _ => set (T := T0)
  end.
  destruct (TestFactory.has_arrange c) eqn:Harr.
  - exists T. repeat apply conj.
    + reflexivity.
    + apply arrange_all_idle. left. exact Harr.
    + discriminate.
    + intros _. split; [reflexivity|].
      unfold TestFactory._measure. cbn.
      destruct (TestFactory.has_measure c), (Js.truthy answer); reflexivity.
  - destruct (Js.truthy (TestFactory.supported T)) eqn:Hsup.
    + destruct (arrange_all_supported T tests Harr Hsup Hsetup)
        as (T' & Hrun & Hc & _ & Hcb & _ & Hn).
      exists T'. repeat apply conj.
      * reflexivity.
      * exact Hrun.
      * intros _ _. split.
        -- rewrite Hn. cbn. destruct (Nat.eqb (length tests) 0); reflexivity.
        -- unfold TestFactory._measure. rewrite Hc, Hcb. cbn.
           destruct (TestFactory.has_measure c), (Js.truthy answer); reflexivity.
      * intros [H|H]; [discriminate H|].
        exfalso. revert Hsup H. subst T. cbn. congruence.
    + exists T. repeat apply conj.
      * reflexivity.
      * apply arrange_all_idle. right. exact Hsup.
      * intros _ H. exfalso. revert Hsup H. subst T. cbn. congruence.
      * intros _. split; [reflexivity|].
        unfold TestFactory._measure. cbn.
        destruct (TestFactory.has_measure c), (Js.truthy answer); reflexivity.
Qed.

Lemma setup_runs_once_for_all_instances_witness :
  exists T T',
    TestFactory._createTest
      {| TestFactory.has_assert := true; TestFactory.support := None;
         TestFactory.has_setup := true; TestFactory.has_arrange := false;
         TestFactory.has_measure := false |} = Ok T
    /\ TestFactory.arrange_all T [4; 2; 7] = Ok T'
    /\ TestFactory.setups T' = 1%nat
    /\ TestFactory._measure T' Js.VUndefined = [4; 2; 7].
Proof.
  destruct (setup_runs_once_for_all_instances
              {| TestFactory.has_assert := true; TestFactory.support := None;
                 TestFactory.has_setup := true; TestFactory.has_arrange := false;
                 TestFactory.has_measure := false |} [4; 2; 7] Js.VUndefined
              eq_refl eq_refl)
    as (T & T' & Hnew & Hrun & Hup & _).
  exists T, T'. split; [exact Hnew|]. split; [exact Hrun|].
  injection Hnew as <-.
  exact (Hup eq_refl eq_refl).
Defined.

(** X20.  The class of a test is created from the configuration of the first
    request and kept: a later request for the same path answers with the
    same class whatever configuration comes with it, and the classes of
    other paths are not touched. *)
Theorem getTest_creates_once (tests tests' : gmap string TestFactory.Test)
    (path : string) (c c' : TestFactory.config) :
  TestFactory.getTest tests path c = Ok tests' ->
  TestFactory.getTest tests' path c' = Ok tests'
  /\ (exists T, tests' !! ("tests/" ++ path) = Some T
               /\ (tests !! ("tests/" ++ path) = None ->
                   TestFactory._createTest c = Ok T))
  /\ (forall q, q <> "tests/" ++ path -> tests' !! q = tests !! q).
Proof.
  unfold TestFactory.getTest.
  destruct (tests !! ("tests/" ++ path)) as [T0|] eqn:Hlook.
  - intros [= <-]. rewrite Hlook. repeat apply conj.
    + reflexivity.
    + exists T0. split; [reflexivity|discriminate].
    + reflexivity.
  - destruct (TestFactory._createTest c) as [T|err] eqn:Hnew; [|discriminate].
    cbn [bind]. intros [= <-]. rewrite lookup_insert_eq. repeat apply conj.
    + reflexivity.
    + exists T. split; reflexivity.
    + intros q Hq. rewrite lookup_insert_ne by congruence. reflexivity.
Qed.

Lemma getTest_creates_once_witness :
  TestFactory.getTest
    (<["tests/media" :=
         {| TestFactory.of_config :=
              {| TestFactory.has_assert := true; TestFactory.support := None;
                 TestFactory.has_setup := true; TestFactory.has_arrange := false;
                 TestFactory.has_measure := false |};
            TestFactory.supported := Js.VBool true;
            TestFactory._callbacks := []; TestFactory._ready := false;
            TestFactory.setups := 0 |}]> ∅)
    "media"
    {| TestFactory.has_assert := false; TestFactory.support := None;
       TestFactory.has_setup := false; TestFactory.has_arrange := false;
       TestFactory.has_measure := false |}
  = Ok (<["tests/media" :=
         {| TestFactory.of_config :=
              {| TestFactory.has_assert := true; TestFactory.support := None;
                 TestFactory.has_setup := true; TestFactory.has_arrange := false;
                 TestFactory.has_measure := false |};
            TestFactory.supported := Js.VBool true;
            TestFactory._callbacks := []; TestFactory._ready := false;
            TestFactory.setups := 0 |}]> ∅).
Proof.
  refine (proj1 (getTest_creates_once ∅ _ "media"
                   {| TestFactory.has_assert := true; TestFactory.support := None;
                      TestFactory.has_setup := true; TestFactory.has_arrange := false;
                      TestFactory.has_measure := false |} _ _)).
  reflexivity.
Defined.
